(** * MSF container engine (msf.cpp): shallow embedding and properties

    The development follows src/msf.cpp top to bottom: the constants, the
    free-page-map predicate [isFpmPage], the page writer [writePage], the
    stream writer [writeStream], the container reader (the constructor of
    [MsfFile]), the accessors, and [MsfFile::write].

    Integers of the source (size_t, uint32_t, int64_t) are [Z] with the
    wrap-around written where the source type wraps. Bytes are [Byte.byte].
    A file opened for writing is the sequence of blocks given to fwrite; a
    file opened for reading is its bytes. *)

From Stdlib Require Import String ZArith List Bool Lia.
From Stdlib Require Import Strings.Byte.
Import ListNotations.
Local Open Scope Z_scope.

(** ** Machine integers *)

Module Int.

Definition uint32_max : Z := 2 ^ 32.
Definition size_max : Z := 2 ^ 64.

(** Conversion to uint32_t (narrowing keeps the low 32 bits). *)
Definition uint32 (z : Z) : Z := z mod uint32_max.

(** Conversion to size_t. *)
Definition size_t (z : Z) : Z := z mod size_max.

(** Little-endian value of a run of bytes. *)
Fixpoint le_bytes (bs : list byte) : Z :=
  match bs with
  | [] => 0
  | b :: bs' => Z.of_N (Byte.to_N b) + 256 * le_bytes bs'
  end.

(** A uint32_t read from memory at byte offset [off]. *)
Definition read_u32 (mem : list byte) (off : nat) : Z :=
  le_bytes (firstn 4 (skipn off mem)).

(** The words of a buffer of [n] uint32_t. *)
Fixpoint read_u32s (mem : list byte) (n : nat) : list Z :=
  match n with
  | O => []
  | S n' => le_bytes (firstn 4 mem) :: read_u32s (skipn 4 mem) n'
  end.

Definition byte_of (z : Z) : byte :=
  match Byte.of_N (Z.to_N (z mod 256)) with
  | Some b => b
  | None => x00
  end.

(** The four bytes of a uint32_t in memory. *)
Definition u32_bytes (z : Z) : list byte :=
  [byte_of z; byte_of (z / 256); byte_of (z / 65536); byte_of (z / 16777216)].

End Int.
Import Int.

(** ** Constants of the anonymous namespace *)

(** A good page size to use when writing out the MSF. *)
Definition kPageSize : Z := 4096.

(** A blank page. Used to write uninitialized pages to the MSF file. *)
Definition kBlankPage : list byte := repeat x00 (Z.to_nat kPageSize).

(** ** Files *)

(** A file being written: the blocks passed to fwrite, in order. The handle
    is in memory, so fwrite always transfers the whole block and the
    std::system_error paths of the source are not taken. *)
Definition OutFile : Type := list (list byte).

Definition fwrite (block : list byte) (f : OutFile) : OutFile := f ++ [block].

(** The bytes of a written file. *)
Definition file_bytes (f : OutFile) : list byte := concat f.

(** A file being read: its bytes, the handle positioned at offset 0. *)
Definition InFile : Type := list byte.

Definition getFileSize (f : InFile) : Z := Z.of_nat (length f).

(** ** isFpmPage *)

(** [switch (page & (pageSize - 1)) { case 1: case 2: true; default: false }]
    on size_t operands. *)
Definition isFpmPage (page pageSize : Z) : bool :=
  match Z.land page (size_t (pageSize - 1)) with
  | 1 | 2 => true
  | _ => false
  end.

(** ** Streams *)

(** Modelled from the spec: pageCount(pageSize, length) of msf.h, the number of
    pages that hold [length] bytes, ceil(length / pageSize). *)
Definition pageCount (pageSize length : Z) : Z :=
  (length + pageSize - 1) / pageSize.

(** Modelled from the spec: the MsfStream interface of msf_stream.h with its two
    implementations, msf_readonly_stream.h (a contiguous buffer in memory)
    and msf_file_stream.h (bytes of a file reached through a list of page
    numbers). Each carries its read position. The capability set is
    length(), setPos(offset) and read(maxBytes). *)
Inductive MsfStream : Type :=
| MsfReadOnlyStream (data : list byte) (pos : nat)
| MsfFileStream (f : InFile) (pageSize length : Z) (pages : list Z) (pos : nat).

(** A shared pointer to a stream; [None] is the null pointer. *)
Definition MsfStreamRef : Type := option MsfStream.
Definition nullptr : MsfStreamRef := None.

Module Stream.

(** The bytes of page [p] of a file with pages of [pageSize] bytes. *)
Definition page_bytes (f : InFile) (pageSize p : Z) : list byte :=
  firstn (Z.to_nat pageSize) (skipn (Z.to_nat (p * pageSize)) f).

(** All the bytes a stream can deliver from position 0. *)
Definition contents (s : MsfStream) : list byte :=
  match s with
  | MsfReadOnlyStream data _ => data
  | MsfFileStream f pageSize len pages _ =>
      firstn (Z.to_nat len) (concat (map (page_bytes f pageSize) pages))
  end.

Definition pos (s : MsfStream) : nat :=
  match s with
  | MsfReadOnlyStream _ p => p
  | MsfFileStream _ _ _ _ p => p
  end.

(** length(): the declared byte length. *)
Definition length (s : MsfStream) : Z :=
  match s with
  | MsfReadOnlyStream data _ => Z.of_nat (List.length data)
  | MsfFileStream _ _ len _ _ => len
  end.

Definition setPos (p : nat) (s : MsfStream) : MsfStream :=
  match s with
  | MsfReadOnlyStream data _ => MsfReadOnlyStream data p
  | MsfFileStream f pageSize len pages _ => MsfFileStream f pageSize len pages p
  end.

(** read(maxBytes, buf): the bytes delivered and the stream advanced past
    them; no bytes exactly at the end of the stream. *)
Definition read (maxBytes : Z) (s : MsfStream) : list byte * MsfStream :=
  let bytes := firstn (Z.to_nat maxBytes) (skipn (pos s) (contents s)) in
  (bytes, setPos (pos s + List.length bytes) s).

(** Bytes left between the read position and the end of the stream. *)
Definition remaining (s : MsfStream) : nat :=
  List.length (skipn (pos s) (contents s)).

End Stream.

(** ** writePage and writeStream *)

(** What writePage and writeStream update through their arguments: the file,
    the vector [pagesWritten] and the counter [pageCount] (a uint32_t). *)
Record Writer : Type := mkWriter {
  wfile : OutFile;
  pagesWritten : list Z;
  wpageCount : Z
}.

(** [fwrite(kBlankPage, 1, kPageSize, f); pagesWritten.push_back(pageCount++)].
    The arguments [data] and [pageSize] are not used by the body. *)
Definition writePage (data : list byte) (pageSize : Z) (w : Writer) : Writer :=
  {| wfile := fwrite kBlankPage (wfile w);
     pagesWritten := pagesWritten w ++ [wpageCount w];
     wpageCount := uint32 (wpageCount w + 1) |}.

(** The body of the while loop of writeStream, for the [bytes] just read. *)
Definition writeStream_body (bytes : list byte) (w : Writer) : Writer :=
  let bytesRead := Z.of_nat (List.length bytes) in
  let leftOver := kPageSize - bytesRead in
  (* Pad the rest of the buffer with zeros *)
  let buf := bytes ++ repeat x00 (Z.to_nat leftOver) in
  let w1 :=
    if isFpmPage (wpageCount w) kPageSize then
      writePage kBlankPage kPageSize (writePage kBlankPage kPageSize w)
    else w in
  writePage buf kPageSize w1.

(** [while (size_t bytesRead = stream->read(kPageSize, buf)) { ... }], at
    most [fuel] iterations. *)
Fixpoint writeStream_loop (fuel : nat) (stream : MsfStream) (w : Writer) : Writer :=
  match fuel with
  | O => w
  | S fuel' =>
      let (bytes, stream') := Stream.read kPageSize stream in
      if Z.of_nat (List.length bytes) =? 0 then w
      else writeStream_loop fuel' stream' (writeStream_body bytes w)
  end.

(** Every iteration consumes at least one byte, so the bytes of the stream
    bound the iterations. *)
Definition writeStream (stream : MsfStreamRef) (w : Writer) : Writer :=
  match stream with
  | None => w
  | Some s =>
      if Stream.length s =? 0 then w
      else
        let s0 := Stream.setPos 0 s in
        writeStream_loop (Stream.remaining s0) s0 w
  end.

(** ** MsfFile *)

(** The container: its vector of (possibly null) stream references. *)
Record MsfFile : Type := mkMsfFile { _streams : list MsfStreamRef }.

(** [_streams.push_back(MsfStreamRef(stream)); return _streams.size()-1;] *)
Definition addStream (stream : MsfStream) (m : MsfFile) : MsfFile * Z :=
  let m' := {| _streams := _streams m ++ [Some stream] |} in
  (m', Z.of_nat (List.length (_streams m')) - 1).

Definition streamCount (m : MsfFile) : Z := Z.of_nat (List.length (_streams m)).

(** [if (index < _streams.size()) return _streams[index]; return nullptr;]
    with [index] a size_t. *)
Definition getStream (index : Z) (m : MsfFile) : MsfStreamRef :=
  if index <? Z.of_nat (List.length (_streams m)) then
    nth (Z.to_nat index) (_streams m) nullptr
  else nullptr.

(** ** The constructor MsfFile::MsfFile(FileRef f) *)

(** How a call ends. The constructor either returns the container, or throws
    InvalidMsf with a cause, or reads an element of the vector [streamTable]
    at an index that is not below streamTable.size(), which the language
    leaves undefined. *)
Inductive Outcome (A : Type) : Type :=
| Returns (a : A)
| InvalidMsf (what : string)
| OutOfBounds (index : Z).
Arguments Returns {A} a.
Arguments InvalidMsf {A} what.
Arguments OutOfBounds {A} index.

(** Modelled from the spec: the fields of MSF_HEADER (msf.h) that the
    constructor uses: the magic bytes, the page size, the page count and
    the byte size of the stream table. *)
Record MSF_HEADER : Type := mkHeader {
  magic : list byte;
  pageSize : Z;
  hdr_pageCount : Z;
  streamTableInfo_size : Z
}.

(** The layout of MSF_HEADER and the constant kMsfHeaderMagic are declared
    in msf.h; the constructor is parametric in them. *)
Record HeaderLayout : Type := mkLayout {
  sizeof_MSF_HEADER : nat;
  kMsfHeaderMagic : list byte;
  header_of_bytes : list byte -> MSF_HEADER
}.

(** [memcmp(a, b, n) == 0] *)
Fixpoint memcmp_eq (a b : list byte) (n : nat) {struct n} : bool :=
  match n with
  | O => true
  | S n' =>
      match a, b with
      | x :: a', y :: b' => Byte.eqb x y && memcmp_eq a' b' n'
      | _, _ => false
      end
  end.

(** Modelled from the spec: the constructor of MsfFileStream takes the page
    numbers of the stream, pageCount(pageSize, length) of them, from the
    array it is given. *)
Definition newMsfFileStream (f : InFile) (pageSize length : Z) (pages : list Z)
  : MsfStream :=
  MsfFileStream f pageSize length
    (firstn (Z.to_nat (pageCount pageSize length)) pages) 0.

(** The for loop over the stream table. [streamSizes] is the vector from
    index 1 + i on, so that streamSizes[i] is its head, and reading it when
    the vector has ended is an out-of-range read. The page numbers of
    stream i are the pageCount(pageSize, size) words from index
    1 + streamCount + pagesIndex on, which the constructor of MsfFileStream
    reads from streamPages + pagesIndex: when there is one to read and they
    do not all lie in the vector, that is an out-of-range read too, at the
    first of them that is not in the vector. *)
Fixpoint readStreams (f : InFile) (pageSize : Z) (streamTable : list Z)
    (streamCount : Z) (streamSizes : list Z) (i pagesIndex : Z) (m : MsfFile)
  : Outcome MsfFile :=
  if i <? streamCount then
    (* If we were given a bogus stream count, we could potentially overflow
       the stream table vector. Detect that here. *)
    if pagesIndex >=? Z.of_nat (List.length streamTable) then
      InvalidMsf "invalid stream count in stream table"
    else
      match streamSizes with
      | [] => OutOfBounds (1 + i)
      | size :: streamSizes' =>
          let first := 1 + streamCount + pagesIndex in
          let pages := pageCount pageSize size in
          if (0 <? pages)
             && (Z.of_nat (List.length streamTable) <? first + pages) then
            OutOfBounds (Z.max first (Z.of_nat (List.length streamTable)))
          else
          let streamPages := skipn (Z.to_nat first) streamTable in
          let m' := fst (addStream (newMsfFileStream f pageSize size streamPages) m) in
          readStreams f pageSize streamTable streamCount streamSizes' (i + 1)
            (uint32 (pagesIndex + pages)) m'
      end
  else Returns m.

(** The end of the constructor, from the binding of [streamCount] on, for
    the stream table read into its vector. The first element in the stream
    table is the total number of streams; the sizes of each stream then
    follow. *)
Definition readStreamTable (f : InFile) (pageSize : Z) (streamTable : list Z)
  : Outcome MsfFile :=
  match streamTable with
  | [] => OutOfBounds 0
  | streamCount :: streamSizes =>
      readStreams f pageSize streamTable streamCount streamSizes 0 0
        {| _streams := [] |}
  end.

Section Reader.

Variable layout : HeaderLayout.

(** The header a successful [fread(&header, sizeof(header), 1, f)] stores. *)
Definition read_header (f : InFile) : MSF_HEADER :=
  header_of_bytes layout (firstn (sizeof_MSF_HEADER layout) f).

Definition MsfFile_ctor (f : InFile) : Outcome MsfFile :=
  (* Read the header *)
  if (List.length f <? sizeof_MSF_HEADER layout)%nat then
    InvalidMsf "Missing MSF header"
  else
  let header := read_header f in
  (* Check that this is indeed an MSF header *)
  if negb (memcmp_eq (magic header) (kMsfHeaderMagic layout)
             (List.length (kMsfHeaderMagic layout))) then
    InvalidMsf "Invalid MSF header"
  else
  (* Check that the file size makes sense *)
  if negb (uint32 (pageSize header * hdr_pageCount header) =? getFileSize f) then
    InvalidMsf "Invalid MSF file length"
  else
  let stPagesPagesCount := pageCount (pageSize header) (streamTableInfo_size header) in
  (* Read the stream table page directory *)
  let rest := skipn (sizeof_MSF_HEADER layout) f in
  if (List.length rest <? 4 * Z.to_nat stPagesPagesCount)%nat then
    InvalidMsf "Missing root MSF stream table page list"
  else
  let streamTablePagesPages := read_u32s rest (Z.to_nat stPagesPagesCount) in
  let streamTablePagesStream :=
    newMsfFileStream f (pageSize header) (stPagesPagesCount * 4) streamTablePagesPages in
  (* Read the list of stream table pages. *)
  let bytes1 := fst (Stream.read (Stream.length streamTablePagesStream)
                       streamTablePagesStream) in
  if negb (Z.of_nat (List.length bytes1) =? stPagesPagesCount * 4) then
    InvalidMsf "failed to read stream table page list"
  else
  let streamTablePages := read_u32s bytes1 (Z.to_nat stPagesPagesCount) in
  (* Finally, read the stream table itself *)
  let streamTableStream :=
    newMsfFileStream f (pageSize header) (streamTableInfo_size header) streamTablePages in
  let bytes2 := fst (Stream.read (Stream.length streamTableStream) streamTableStream) in
  if negb (Z.of_nat (List.length bytes2) =? streamTableInfo_size header) then
    InvalidMsf "failed to read stream table"
  else
  let streamTable := read_u32s bytes2 (Z.to_nat (streamTableInfo_size header / 4)) in
  readStreamTable f (pageSize header) streamTable.

End Reader.

(** ** MsfFile::write *)

(** The local variables of MsfFile::write when it returns, next to the file
    it has written. *)
Record Written : Type := mkWritten {
  out_file : OutFile;
  streamTable : list Z;
  streamTablePages : list Z;
  out_pageCount : Z
}.

(** The for loop that writes [n] blank pages of preamble. *)
Fixpoint writePreamble (n : nat) (f : OutFile) : OutFile :=
  match n with
  | O => f
  | S n' => writePreamble n' (fwrite kBlankPage f)
  end.

(** [streamTable.push_back(stream ? stream->length() : 0)] for each stream. *)
Definition pushSizes (streams : list MsfStreamRef) (streamTable : list Z) : list Z :=
  fold_left
    (fun st (stream : MsfStreamRef) =>
       match stream with
       | Some s => st ++ [uint32 (Stream.length s)]
       | None => st ++ [0]
       end)
    streams streamTable.

(** [for (auto&& stream: _streams) writeStream(f, stream, streamTable, pageCount);] *)
Definition writeStreams (streams : list MsfStreamRef) (w : Writer) : Writer :=
  fold_left (fun w stream => writeStream stream w) streams w.

(** The writer state when the loop over the streams starts. *)
Definition write_start (m : MsfFile) (f : OutFile) : Writer :=
  let f := writePreamble 4 f in
  let pageCount := 4 in
  (* Initialize the stream table. *)
  let streamTable := [uint32 (streamCount m)] in
  let streamTable := pushSizes (_streams m) streamTable in
  {| wfile := f; pagesWritten := streamTable; wpageCount := pageCount |}.

(** [new MsfReadOnlyStream(length, data)] over the memory of a vector of
    uint32_t: the stream of the first [length] bytes at [data]. *)
Definition newMsfReadOnlyStream (length : nat) (data : list Z) : MsfStream :=
  MsfReadOnlyStream (firstn length (List.concat (map u32_bytes data))) 0.

Definition MsfFile_write (m : MsfFile) (f : OutFile) : Written :=
  let w := write_start m f in
  (* Write out each stream and add the stream's page numbers to the stream
     table. *)
  let w := writeStreams (_streams m) w in
  (* Write the stream table stream at the end of the file, keeping track of
     which pages were written. *)
  let streamTablePages : list Z := [] in
  let streamTableStream :=
    newMsfReadOnlyStream (List.length streamTablePages * 4) streamTablePages in
  let w' := writeStream (Some streamTableStream)
              {| wfile := wfile w; pagesWritten := streamTablePages;
                 wpageCount := wpageCount w |} in
  {| out_file := wfile w';
     streamTable := pagesWritten w;
     streamTablePages := pagesWritten w';
     out_pageCount := wpageCount w' |}.

(** ** The header of MSF 7.00 files *)

(** Modelled from the spec: the layout of MSF_HEADER in msf.h: 32 bytes of
    magic, then the little-endian 32-bit fields pageSize, freePageMap,
    pageCount, streamTableInfo.size and streamTableInfo.index; and the
    constant kMsfHeaderMagic, the signature of MSF 7.00 files. *)
Definition msf7_magic : list byte :=
  list_byte_of_string "Microsoft C/C++ MSF 7.00"
    ++ [x0d; x0a; x1a; x44; x53; x00; x00; x00].

Definition msf7_header_of_bytes (bs : list byte) : MSF_HEADER :=
  {| magic := firstn 32 bs;
     pageSize := read_u32 bs 32;
     hdr_pageCount := read_u32 bs 40;
     streamTableInfo_size := read_u32 bs 44 |}.

Definition msf7 : HeaderLayout :=
  {| sizeof_MSF_HEADER := 52;
     kMsfHeaderMagic := msf7_magic;
     header_of_bytes := msf7_header_of_bytes |}.

(** ** The cursor values the writer tests *)

(** The values of [pageCount] on which the loop of writeStream calls
    isFpmPage, in the order of the calls: the recursion of
    [writeStream_loop], keeping the counter of each iteration. *)
Fixpoint writeStream_loop_checks (fuel : nat) (stream : MsfStream) (w : Writer)
  : list Z :=
  match fuel with
  | O => []
  | S fuel' =>
      let (bytes, stream') := Stream.read kPageSize stream in
      if Z.of_nat (List.length bytes) =? 0 then []
      else wpageCount w
             :: writeStream_loop_checks fuel' stream' (writeStream_body bytes w)
  end.

Definition writeStream_checks (stream : MsfStreamRef) (w : Writer) : list Z :=
  match stream with
  | None => []
  | Some s =>
      if Stream.length s =? 0 then []
      else
        let s0 := Stream.setPos 0 s in
        writeStream_loop_checks (Stream.remaining s0) s0 w
  end.

Fixpoint writeStreams_checks (streams : list MsfStreamRef) (w : Writer) : list Z :=
  match streams with
  | [] => []
  | stream :: streams' =>
      writeStream_checks stream w
        ++ writeStreams_checks streams' (writeStream stream w)
  end.

(** All the tests of one call of MsfFile::write: those of the streams, then
    those of the stream table stream. *)
Definition MsfFile_write_checks (m : MsfFile) (f : OutFile) : list Z :=
  let w0 := write_start m f in
  let w := writeStreams (_streams m) w0 in
  let streamTablePages : list Z := [] in
  writeStreams_checks (_streams m) w0
    ++ writeStream_checks
         (Some (newMsfReadOnlyStream (List.length streamTablePages * 4)
                  streamTablePages))
         {| wfile := wfile w; pagesWritten := streamTablePages;
            wpageCount := wpageCount w |}.

(** The page numbers one iteration of the loop pushes when it starts with
    the counter at [c]. *)
Definition emitted (c : Z) : list Z :=
  if isFpmPage c kPageSize then [c; uint32 (c + 1); uint32 (uint32 (c + 1) + 1)]
  else [c].

(** The size write records for a stream reference. *)
Definition recorded_size (stream : MsfStreamRef) : Z :=
  match stream with
  | Some s => uint32 (Stream.length s)
  | None => 0
  end.

(** ** Predicates on the writer *)

(** [w'] is [w] after some blank pages were written to the file and some
    page numbers pushed on the vector. *)
Definition appends (w w' : Writer) : Prop :=
  exists (n : nat) (l : list Z),
    wfile w' = wfile w ++ repeat kBlankPage n
    /\ pagesWritten w' = pagesWritten w ++ l.

(** The counter values that occur at the tests: a uint32_t that is neither
    the second slot of a reserved pair nor the slot after it. *)
Definition valid_cursor (c : Z) : Prop :=
  0 <= c < uint32_max /\ c mod kPageSize <> 2 /\ c mod kPageSize <> 3.

(** ** Inputs used below *)

Module Inputs.

(** A stream in memory holding the one byte 'A'. *)
Definition one_byte : MsfStream := MsfReadOnlyStream [x41] 0.

(** A container with that stream alone. *)
Definition single : MsfFile := {| _streams := [Some one_byte] |}.

(** A container of 4094 one-byte streams: the first 4093 take the pages 4 to
    4096, so the last one is written with the counter at 4097. *)
Definition many : MsfFile := {| _streams := repeat (Some one_byte) 4094 |}.

(** A container with a stream, a null entry and an empty stream. *)
Definition holes : MsfFile :=
  {| _streams := [Some one_byte; None; Some (MsfReadOnlyStream [] 0)] |}.

(** [bs] followed by zeros up to one page. *)
Definition page_of (bs : list byte) : list byte :=
  bs ++ repeat x00 (Z.to_nat kPageSize - List.length bs).

(** A three-page MSF 7.00 file. Page 0: the header (pageSize 4096,
    pageCount 3, stream table of 8 bytes) and after it the root page list
    [1]. Page 1: the page list of the stream table, [2]. Page 2: the stream
    table, the two words [2; 0]: two streams declared, one size present. *)
Definition crafted : InFile :=
  page_of (msf7_magic ++ u32_bytes 4096 ++ u32_bytes 0 ++ u32_bytes 3
             ++ u32_bytes 8 ++ u32_bytes 0 ++ u32_bytes 1)
  ++ page_of (u32_bytes 2)
  ++ page_of (u32_bytes 2 ++ u32_bytes 0).

(** 52 bytes that start with the magic and declare pageSize 0, pageCount 0. *)
Definition bad_length : InFile := msf7_magic ++ repeat x00 20.

End Inputs.

(** ** replaceStream *)

(** [_streams[index] = MsfStreamRef(stream);] on the vector. *)
Fixpoint vector_set (l : list MsfStreamRef) (n : nat) (x : MsfStreamRef)
  : list MsfStreamRef :=
  match l, n with
  | [], _ => []
  | _ :: l', O => x :: l'
  | y :: l', S n' => y :: vector_set l' n' x
  end.

(** MsfFile::replaceStream(index, stream), [stream] a pointer that may be
    null. The body indexes the vector without a test: for an index that is
    not below _streams.size() the assignment is undefined, [None] here. *)
Definition replaceStream (index : Z) (stream : MsfStreamRef) (m : MsfFile)
  : option MsfFile :=
  if index <? Z.of_nat (List.length (_streams m)) then
    Some {| _streams := vector_set (_streams m) (Z.to_nat index) stream |}
  else None.

(** ** Further predicates *)

(** [w'] is [w] after exactly [n] calls of writePage: [n] blank pages in
    the file, the [n] successive values of the counter pushed, the counter
    moved by [n]. *)
Definition wrote (n : nat) (w w' : Writer) : Prop :=
  wfile w' = wfile w ++ repeat kBlankPage n
  /\ pagesWritten w'
     = pagesWritten w
         ++ map (fun k : nat => uint32 (wpageCount w + Z.of_nat k)) (seq 0 n)
  /\ wpageCount w' = uint32 (wpageCount w + Z.of_nat n).

(** A reference that writeStream skips: null, or to a stream of length 0. *)
Definition null_or_empty (stream : MsfStreamRef) : Prop :=
  stream = nullptr \/ exists s, stream = Some s /\ Stream.length s = 0.

(** Two references that agree on what write asks of a stream: both null, or
    streams of the same declared length that deliver the same number of
    bytes. *)
Definition same_shape (x y : MsfStreamRef) : Prop :=
  match x, y with
  | None, None => True
  | Some s, Some t =>
      Stream.length s = Stream.length t
      /\ List.length (Stream.contents s) = List.length (Stream.contents t)
  | _, _ => False
  end.

(** A one-page MSF 7.00 file whose header declares pageSize 4096,
    pageCount 1 and a stream table of 0 bytes. *)
Definition empty_table_file : InFile :=
  Inputs.page_of (msf7_magic ++ u32_bytes 4096 ++ u32_bytes 0 ++ u32_bytes 1
                    ++ u32_bytes 0 ++ u32_bytes 0).

(** A three-page MSF 7.00 file that the constructor accepts. Page 0: the
    header (pageSize 4096, pageCount 3, stream table of 16 bytes) and the
    root page list [1]. Page 1: the page list of the stream table, [2].
    Page 2: the stream table [2; 0; 5; 0]: an empty stream and a stream of
    5 bytes on page 0. *)
Definition two_stream_file : InFile :=
  Inputs.page_of (msf7_magic ++ u32_bytes 4096 ++ u32_bytes 0 ++ u32_bytes 3
                    ++ u32_bytes 16 ++ u32_bytes 0 ++ u32_bytes 1)
  ++ Inputs.page_of (u32_bytes 2)
  ++ Inputs.page_of (u32_bytes 2 ++ u32_bytes 0 ++ u32_bytes 5 ++ u32_bytes 0).

(** The file [two_stream_file] with the page count of its header changed
    to 1048579 (3 + 2^20): three pages, 12288 bytes, under a header whose
    page size times page count is 4294979584. *)
Definition wrapped_count_file : InFile :=
  Inputs.page_of (msf7_magic ++ u32_bytes 4096 ++ u32_bytes 0
                    ++ u32_bytes 1048579
                    ++ u32_bytes 16 ++ u32_bytes 0 ++ u32_bytes 1)
  ++ Inputs.page_of (u32_bytes 2)
  ++ Inputs.page_of (u32_bytes 2 ++ u32_bytes 0 ++ u32_bytes 5 ++ u32_bytes 0).

(** * Properties *)

(** ** isFpmPage *)

Lemma size_t_mask (k : Z) : 0 <= k < 64 -> size_t (2 ^ k - 1) = Z.ones k.
Proof.
  intros Hk. unfold size_t, size_max.
  rewrite Z.ones_equiv, <- Z.sub_1_r.
  apply Z.mod_small.
  assert (0 < 2 ^ k) by (apply Z.pow_pos_nonneg; lia).
  assert (2 ^ k < 2 ^ 64) by (apply Z.pow_lt_mono_r; lia).
  lia.
Qed.

Lemma isFpmPage_land (page pageSize : Z) :
  isFpmPage page pageSize
  = (Z.land page (size_t (pageSize - 1)) =? 1)
    || (Z.land page (size_t (pageSize - 1)) =? 2).
Proof.
  unfold isFpmPage.
  destruct (Z.land page (size_t (pageSize - 1))) as [|q|q]; try reflexivity.
  destruct q as [[q|q|]|[q|q|]|]; reflexivity.
Qed.

(** C4. For a page size that is a power of two (2^k, k < 64, so that it fits
    size_t; 4096 by default) and every page ordinal p, isFpmPage(p, pageSize)
    is true exactly when p mod pageSize is 1 or 2. *)
Theorem isFpmPage_iff_mod (p pageSize k : Z) :
  0 <= k < 64 ->
  pageSize = 2 ^ k ->
  isFpmPage p pageSize = true <-> (p mod pageSize = 1 \/ p mod pageSize = 2).
Proof.
  intros Hk ->.
  rewrite isFpmPage_land, size_t_mask by assumption.
  rewrite Z.land_ones by lia.
  rewrite orb_true_iff, !Z.eqb_eq. reflexivity.
Qed.

Lemma isFpmPage_iff_mod_witness :
  (0 <= 12 < 64 /\ kPageSize = 2 ^ 12)
  /\ (isFpmPage 4097 kPageSize = true
      <-> (4097 mod kPageSize = 1 \/ 4097 mod kPageSize = 2)).
Proof.
  split; [split; [lia | reflexivity] |].
  apply (isFpmPage_iff_mod 4097 kPageSize 12); [lia | reflexivity].
Defined.

Lemma isFpmPage_default (p : Z) :
  isFpmPage p kPageSize = (p mod kPageSize =? 1) || (p mod kPageSize =? 2).
Proof.
  rewrite isFpmPage_land.
  change kPageSize with (2 ^ 12).
  rewrite size_t_mask, Z.land_ones by lia. reflexivity.
Qed.

(** ** What the writer appends *)

Lemma appends_refl (w : Writer) : appends w w.
Proof. exists 0%nat, []. cbn. now rewrite !app_nil_r. Qed.

Lemma appends_trans (w1 w2 w3 : Writer) :
  appends w1 w2 -> appends w2 w3 -> appends w1 w3.
Proof.
  intros (n1 & l1 & Hf1 & Hp1) (n2 & l2 & Hf2 & Hp2).
  exists (n1 + n2)%nat, (l1 ++ l2).
  rewrite Hf2, Hf1, Hp2, Hp1, repeat_app, !app_assoc. auto.
Qed.

Lemma writePage_appends (data : list byte) (ps : Z) (w : Writer) :
  appends w (writePage data ps w).
Proof. exists 1%nat, [wpageCount w]. auto. Qed.

Lemma writeStream_body_appends (bytes : list byte) (w : Writer) :
  appends w (writeStream_body bytes w).
Proof.
  unfold writeStream_body.
  destruct (isFpmPage (wpageCount w) kPageSize).
  - eapply appends_trans; [| apply writePage_appends].
    eapply appends_trans; apply writePage_appends.
  - apply writePage_appends.
Qed.

Lemma writeStream_loop_appends (fuel : nat) :
  forall (s : MsfStream) (w : Writer), appends w (writeStream_loop fuel s w).
Proof.
  induction fuel as [|fuel IH]; intros s w; cbn [writeStream_loop].
  - apply appends_refl.
  - destruct (Stream.read kPageSize s) as [bytes s'].
    destruct (Z.of_nat (List.length bytes) =? 0).
    + apply appends_refl.
    + eapply appends_trans; [apply writeStream_body_appends | apply IH].
Qed.

Lemma writeStream_appends (stream : MsfStreamRef) (w : Writer) :
  appends w (writeStream stream w).
Proof.
  destruct stream as [s|]; cbn [writeStream]; [| apply appends_refl].
  destruct (Stream.length s =? 0);
    [apply appends_refl | apply writeStream_loop_appends].
Qed.

Lemma writeStreams_appends (streams : list MsfStreamRef) :
  forall w : Writer, appends w (writeStreams streams w).
Proof.
  induction streams as [|s streams IH]; intros w; cbn.
  - apply appends_refl.
  - eapply appends_trans; [apply writeStream_appends | apply IH].
Qed.

Lemma writePreamble_4 (f : OutFile) :
  writePreamble 4 f = f ++ repeat kBlankPage 4.
Proof. cbn. unfold fwrite. now rewrite <- !app_assoc. Qed.

(** The file MsfFile::write leaves: what was there, the four pages of the
    preamble, and blank pages only. *)
Lemma MsfFile_write_file (m : MsfFile) (f : OutFile) :
  exists n : nat,
    out_file (MsfFile_write m f) = f ++ repeat kBlankPage (4 + n).
Proof.
  unfold MsfFile_write. cbn [out_file].
  set (w0 := write_start m f).
  destruct (writeStreams_appends (_streams m) w0) as (n1 & l1 & Hf1 & _).
  set (w := writeStreams (_streams m) w0) in *.
  match goal with |- context [writeStream ?s ?x] =>
    destruct (writeStream_appends s x) as (n2 & l2 & Hf2 & _) end.
  exists (n1 + n2)%nat. rewrite Hf2. cbn [wfile]. rewrite Hf1.
  unfold w0, write_start. cbn [wfile]. rewrite writePreamble_4.
  rewrite <- !app_assoc, <- !repeat_app. reflexivity.
Qed.

Lemma kBlankPage_zero : Forall (fun b => b = x00) kBlankPage.
Proof.
  unfold kBlankPage. induction (Z.to_nat kPageSize); cbn; constructor; auto.
Qed.

(** C9. Whatever the container, the pages MsfFile::write emits (the four of
    the preamble and every page written for a stream, for a reserved slot or
    for the stream table) are all the constant blank page, whose bytes are
    all zero: writePage writes kBlankPage whatever data it is given. *)
Theorem write_emits_only_blank_pages (m : MsfFile) (f : OutFile) :
  (exists n : nat,
      (4 <= n)%nat
      /\ out_file (MsfFile_write m f) = f ++ repeat kBlankPage n)
  /\ Forall (fun b => b = x00) kBlankPage
  /\ (forall (data data' : list byte) (ps ps' : Z) (w : Writer),
         writePage data ps w = writePage data' ps' w
         /\ wfile (writePage data ps w) = wfile w ++ [kBlankPage]).
Proof.
  split; [| split].
  - destruct (MsfFile_write_file m f) as [n Hn].
    exists (4 + n)%nat. split; [lia | exact Hn].
  - apply kBlankPage_zero.
  - intros. split; reflexivity.
Qed.

(** ** getStream *)

(** C10. getStream(index) returns the reference stored at [index] when
    index < streamCount(), and the null pointer, with no exception, for
    every index from streamCount() on. *)
Theorem getStream_in_and_out_of_range (m : MsfFile) (index : Z) :
  0 <= index ->
  (index < streamCount m ->
     nth_error (_streams m) (Z.to_nat index) = Some (getStream index m))
  /\ (streamCount m <= index -> getStream index m = nullptr).
Proof.
  intros H0. unfold getStream, streamCount. split; intros H.
  - apply Z.ltb_lt in H as Hb. rewrite Hb.
    apply nth_error_nth'. lia.
  - apply Z.ltb_ge in H. now rewrite H.
Qed.

Lemma getStream_in_and_out_of_range_witness :
  (0 <= 0 /\ 0 < streamCount Inputs.single
   /\ nth_error (_streams Inputs.single) (Z.to_nat 0)
      = Some (getStream 0 Inputs.single))
  /\ (0 <= 1 /\ streamCount Inputs.single <= 1
      /\ getStream 1 Inputs.single = nullptr).
Proof.
  assert (H0 : 0 <= 0) by lia.
  assert (H1 : 0 <= 1) by lia.
  assert (Hin : 0 < streamCount Inputs.single) by (cbn; lia).
  assert (Hout : streamCount Inputs.single <= 1) by (cbn; lia).
  split; (split; [assumption | split; [assumption |]]).
  - exact (proj1 (getStream_in_and_out_of_range Inputs.single 0 H0) Hin).
  - exact (proj2 (getStream_in_and_out_of_range Inputs.single 1 H1) Hout).
Defined.

(** ** The constructor: validation of the header *)

Lemma memcmp_eq_true (a b : list byte) (n : nat) :
  memcmp_eq a b n = true <->
  (n <= List.length a)%nat /\ (n <= List.length b)%nat /\ firstn n a = firstn n b.
Proof.
  revert a b. induction n as [|n IH]; intros a b; cbn.
  - repeat split; auto; lia.
  - destruct a as [|x a], b as [|y b]; cbn;
      try (split; [discriminate | intros (? & ? & ?); lia]).
    rewrite andb_true_iff, IH. split.
    + intros (Hxy & Ha & Hb & Hab).
      apply byte_dec_bl in Hxy. subst y. rewrite Hab.
      repeat split; auto; lia.
    + intros (Ha & Hb & Hab). injection Hab as -> Hab.
      repeat split; auto; try lia. now apply byte_dec_lb.
Qed.

Section HeaderTests.

Variable layout : HeaderLayout.
Variable f : InFile.

Lemma ctor_missing_header :
  (List.length f < sizeof_MSF_HEADER layout)%nat ->
  MsfFile_ctor layout f = InvalidMsf "Missing MSF header".
Proof.
  intros Hshort. unfold MsfFile_ctor.
  apply Nat.ltb_lt in Hshort. now rewrite Hshort.
Qed.

Lemma ctor_bad_magic :
  (sizeof_MSF_HEADER layout <= List.length f)%nat ->
  memcmp_eq (magic (read_header layout f)) (kMsfHeaderMagic layout)
    (List.length (kMsfHeaderMagic layout)) = false ->
  MsfFile_ctor layout f = InvalidMsf "Invalid MSF header".
Proof.
  intros Hlen Hmagic. unfold MsfFile_ctor.
  apply Nat.ltb_ge in Hlen. rewrite Hlen.
  fold (read_header layout f). now rewrite Hmagic.
Qed.

Lemma ctor_bad_length :
  (sizeof_MSF_HEADER layout <= List.length f)%nat ->
  memcmp_eq (magic (read_header layout f)) (kMsfHeaderMagic layout)
    (List.length (kMsfHeaderMagic layout)) = true ->
  uint32 (pageSize (read_header layout f) * hdr_pageCount (read_header layout f))
    <> getFileSize f ->
  MsfFile_ctor layout f = InvalidMsf "Invalid MSF file length".
Proof.
  intros Hlen Hmagic Hsize. unfold MsfFile_ctor.
  apply Nat.ltb_ge in Hlen. rewrite Hlen.
  fold (read_header layout f). rewrite Hmagic. cbn [negb].
  apply Z.eqb_neq in Hsize. now rewrite Hsize.
Qed.

End HeaderTests.

(** The three tests of the header in their order, each with its own
    cause: fewer bytes than the header gives "Missing MSF header"; with the
    header read, a magic that differs gives "Invalid MSF header"; with the
    magic right, a product of the page size and the page count, formed in
    uint32_t, that differs from the size of the file gives
    "Invalid MSF file length". A call that throws returns no container. *)
Theorem ctor_validates_header_in_order (layout : HeaderLayout) (f : InFile) :
  let header := read_header layout f in
  let magic_ok :=
    memcmp_eq (magic header) (kMsfHeaderMagic layout)
      (List.length (kMsfHeaderMagic layout)) in
  ((List.length f < sizeof_MSF_HEADER layout)%nat ->
     MsfFile_ctor layout f = InvalidMsf "Missing MSF header")
  /\ ((sizeof_MSF_HEADER layout <= List.length f)%nat ->
      magic_ok = false ->
      MsfFile_ctor layout f = InvalidMsf "Invalid MSF header")
  /\ ((sizeof_MSF_HEADER layout <= List.length f)%nat ->
      magic_ok = true ->
      uint32 (pageSize header * hdr_pageCount header) <> getFileSize f ->
      MsfFile_ctor layout f = InvalidMsf "Invalid MSF file length")
  /\ (forall what : string,
        MsfFile_ctor layout f = InvalidMsf what ->
        forall m : MsfFile, MsfFile_ctor layout f <> Returns m).
Proof.
  cbv zeta. repeat split.
  - apply ctor_missing_header.
  - apply ctor_bad_magic.
  - apply ctor_bad_length.
  - intros what Hthrow m Hret. rewrite Hret in Hthrow. discriminate.
Qed.

Lemma ctor_validates_header_in_order_witness :
  ((List.length (@nil byte) < sizeof_MSF_HEADER msf7)%nat
   /\ MsfFile_ctor msf7 [] = InvalidMsf "Missing MSF header")
  /\ ((sizeof_MSF_HEADER msf7 <= List.length (repeat x00 52))%nat
      /\ MsfFile_ctor msf7 (repeat x00 52) = InvalidMsf "Invalid MSF header")
  /\ ((sizeof_MSF_HEADER msf7 <= List.length Inputs.bad_length)%nat
      /\ uint32 (pageSize (read_header msf7 Inputs.bad_length)
                 * hdr_pageCount (read_header msf7 Inputs.bad_length))
         <> getFileSize Inputs.bad_length
      /\ MsfFile_ctor msf7 Inputs.bad_length
         = InvalidMsf "Invalid MSF file length").
Proof.
  assert (H1 : (List.length (@nil byte) < sizeof_MSF_HEADER msf7)%nat)
    by (cbn; lia).
  assert (H2 : (sizeof_MSF_HEADER msf7 <= List.length (repeat x00 52))%nat)
    by (cbn; lia).
  assert (H3 : (sizeof_MSF_HEADER msf7 <= List.length Inputs.bad_length)%nat)
    by (cbn; lia).
  assert (H4 : uint32 (pageSize (read_header msf7 Inputs.bad_length)
                       * hdr_pageCount (read_header msf7 Inputs.bad_length))
               <> getFileSize Inputs.bad_length)
    by (vm_compute; discriminate).
  split; [| split].
  - split; [exact H1 |].
    exact (proj1 (ctor_validates_header_in_order msf7 []) H1).
  - split; [exact H2 |].
    exact (proj1 (proj2 (ctor_validates_header_in_order msf7 (repeat x00 52)))
             H2 eq_refl).
  - split; [exact H3 | split; [exact H4 |]].
    exact (proj1 (proj2 (proj2
                    (ctor_validates_header_in_order msf7 Inputs.bad_length)))
             H3 eq_refl H4).
Defined.

(** C5 (the code departs from it). The order of the tests and the first
    two causes are as stated, but the third test multiplies the two
    uint32_t fields in 32 bits. For a file of three pages whose header says
    page size 4096 and page count 1048579, the product 4294979584 differs
    from the size 12288 of the file, the 32-bit product is 12288, and the
    constructor does not throw "Invalid MSF file length": it goes on and
    returns a container of two streams. *)
Theorem header_size_test_wraps :
  pageSize (read_header msf7 wrapped_count_file) = 4096
  /\ hdr_pageCount (read_header msf7 wrapped_count_file) = 1048579
  /\ getFileSize wrapped_count_file = 12288
  /\ pageSize (read_header msf7 wrapped_count_file)
     * hdr_pageCount (read_header msf7 wrapped_count_file)
     <> getFileSize wrapped_count_file
  /\ MsfFile_ctor msf7 wrapped_count_file
     = Returns {| _streams :=
                    [Some (MsfFileStream wrapped_count_file 4096 0 [] 0);
                     Some (MsfFileStream wrapped_count_file 4096 5 [0] 0)] |}.
Proof.
  split; [vm_compute; reflexivity |].
  split; [vm_compute; reflexivity |].
  split; [vm_compute; reflexivity |].
  split; [vm_compute; discriminate |].
  vm_compute. reflexivity.
Qed.

(** The 32-bit product is the product itself as long as that fits a
    uint32_t. *)
Lemma uint32_small (z : Z) : 0 <= z < uint32_max -> uint32 z = z.
Proof. apply Z.mod_small. Qed.

(** With the magic compared over its whole length, the second test is that
    the first bytes of the header are the constant. *)
Lemma magic_test (layout : HeaderLayout) (h : MSF_HEADER) :
  memcmp_eq (magic h) (kMsfHeaderMagic layout)
    (List.length (kMsfHeaderMagic layout)) = true
  <-> firstn (List.length (kMsfHeaderMagic layout)) (magic h)
      = kMsfHeaderMagic layout.
Proof.
  rewrite memcmp_eq_true, (firstn_all (kMsfHeaderMagic layout)). split.
  - now intros (_ & _ & H).
  - intros H. repeat split; auto.
    rewrite <- H at 1. rewrite length_firstn. lia.
Qed.

(** ** The constructor: the stream table *)

(** C6 (the code departs from it). The stream table [2; 0] declares two
    streams and holds one size. No test of the loop stops the second
    iteration, which reads streamSizes[1], the element at index 2 of a
    vector of two: the constructor does not throw InvalidMsf there. The
    same holds when the table comes from a file. *)
Theorem stream_count_guard_misses (f : InFile) :
  readStreamTable f 4096 [2; 0] = OutOfBounds 2
  /\ MsfFile_ctor msf7 Inputs.crafted = OutOfBounds 2.
Proof. split; [reflexivity | vm_compute; reflexivity]. Qed.

(** The test of the loop compares the page cursor, not the index of the
    size, with the length of the vector: a table of sizes that are all 0 is
    read on to its end whatever the count. *)
Lemma readStreams_zero_sizes (f : InFile) (n : nat) :
  forall (table : list Z) (count i : Z) (m : MsfFile),
    (0 < List.length table)%nat ->
    i + Z.of_nat n < count ->
    readStreams f 4096 table count (repeat 0 n) i 0 m
    = OutOfBounds (1 + (i + Z.of_nat n)).
Proof.
  induction n as [|n IH]; intros table count i m Htab Hi.
  - cbn [repeat readStreams].
    replace (i <? count) with true by (symmetry; apply Z.ltb_lt; lia).
    replace (0 >=? Z.of_nat (List.length table)) with false
      by (symmetry; rewrite Z.geb_leb; apply Z.leb_gt; lia).
    do 2 f_equal. lia.
  - cbn [repeat readStreams].
    replace (i <? count) with true by (symmetry; apply Z.ltb_lt; lia).
    replace (0 >=? Z.of_nat (List.length table)) with false
      by (symmetry; rewrite Z.geb_leb; apply Z.leb_gt; lia).
    change (pageCount 4096 0) with 0. cbn [Z.ltb Z.compare andb].
    change (uint32 (0 + 0)) with 0.
    rewrite IH by (auto; lia). do 2 f_equal. lia.
Qed.

(** ** MsfFile::write: the stream table stream *)

(** The last call of writeStream is given a stream over the empty vector
    streamTablePages, not over streamTable: it returns at its first test. *)
Lemma MsfFile_write_last_step (m : MsfFile) (f : OutFile) :
  let w := writeStreams (_streams m) (write_start m f) in
  out_file (MsfFile_write m f) = wfile w
  /\ streamTable (MsfFile_write m f) = pagesWritten w
  /\ streamTablePages (MsfFile_write m f) = []
  /\ out_pageCount (MsfFile_write m f) = wpageCount w.
Proof. repeat split. Qed.

(** C3 (the code departs from it). For the container of one stream of one
    byte, the directory built is [1; 1; 4] (count, size, page), 12 bytes.
    write leaves five pages, the preamble and the page of the stream, with
    the counter at 5: no page holds the directory and the page list of the
    stream table stream is empty. *)
Theorem stream_table_is_not_written :
  let r := MsfFile_write Inputs.single [] in
  streamTable r = [1; 1; 4]
  /\ List.length (out_file r) = 5%nat
  /\ streamTablePages r = []
  /\ out_pageCount r = 5.
Proof. vm_compute. repeat split. Qed.

(** ** MsfFile::write: reserved pages and the page list *)

Lemma writeStream_body_pages (bytes : list byte) (w : Writer) :
  pagesWritten (writeStream_body bytes w)
  = pagesWritten w ++ emitted (wpageCount w).
Proof.
  unfold writeStream_body, emitted.
  destruct (isFpmPage (wpageCount w) kPageSize); cbn;
    now rewrite <- ?app_assoc.
Qed.

(** C2 (the code departs from it). In the container of 4094 one-byte
    streams the last stream is written with the counter at 4097, a reserved
    slot. The two blank pages are written first, but through writePage, which
    pushes their numbers too: the page list of that one-page stream is
    [4097; 4098; 4099], the two reserved pages and then the data page. *)
Theorem reserved_page_numbers_are_pushed :
  let r := MsfFile_write Inputs.many [] in
  nth_error (streamTable r) (Z.to_nat 4094) = Some 1
  /\ firstn (Z.to_nat 4093) (skipn (Z.to_nat 4095) (streamTable r))
     = map Z.of_nat (seq 4 (Z.to_nat 4093))
  /\ skipn (Z.to_nat (4095 + 4093)) (streamTable r) = [4097; 4098; 4099]
  /\ isFpmPage 4097 kPageSize = true
  /\ isFpmPage 4098 kPageSize = true
  /\ isFpmPage 4099 kPageSize = false.
Proof. vm_compute. repeat split. Qed.

(** ** Writing, then reading back *)

(** C1 (the code departs from it). The container of one stream of one byte,
    written to an empty file and read back: the file is five blank pages,
    its first bytes are not the magic, and the constructor throws
    "Invalid MSF header" instead of returning a container with that
    stream. *)
Theorem write_then_read_single_fails :
  let f := file_bytes (out_file (MsfFile_write Inputs.single [])) in
  getFileSize f = 5 * kPageSize
  /\ forallb (Byte.eqb x00) f = true
  /\ MsfFile_ctor msf7 f = InvalidMsf "Invalid MSF header".
Proof. vm_compute. repeat split. Qed.

(** A file whose first page is blank fails the magic test. *)
Lemma ctor_blank_first_page (rest : list byte) :
  MsfFile_ctor msf7 (kBlankPage ++ rest) = InvalidMsf "Invalid MSF header".
Proof.
  assert (Hhead : firstn 52 (kBlankPage ++ rest) = repeat x00 52).
  { unfold kBlankPage.
    change (Z.to_nat kPageSize) with (52 + 4044)%nat.
    rewrite repeat_app, <- app_assoc.
    rewrite firstn_app, repeat_length, Nat.sub_diag, firstn_O, app_nil_r.
    apply firstn_all2. rewrite repeat_length. apply Nat.le_refl. }
  apply ctor_bad_magic.
  - rewrite length_app. unfold kBlankPage. rewrite repeat_length.
    change (sizeof_MSF_HEADER msf7) with 52%nat.
    change kPageSize with 4096. lia.
  - unfold read_header.
    change (sizeof_MSF_HEADER msf7) with 52%nat.
    rewrite Hhead. reflexivity.
Qed.

(** Whatever the container, the file it is written to does not read back:
    the first page is blank, so the magic test of the constructor fails. *)
Lemma write_then_read_fails (m : MsfFile) :
  MsfFile_ctor msf7 (file_bytes (out_file (MsfFile_write m [])))
  = InvalidMsf "Invalid MSF header".
Proof.
  destruct (MsfFile_write_file m []) as [n Hn]. rewrite Hn.
  cbn [app repeat Nat.add file_bytes List.concat].
  apply ctor_blank_first_page.
Qed.

(** ** The loop of writeStream ends *)

Lemma contents_setPos (p : nat) (s : MsfStream) :
  Stream.contents (Stream.setPos p s) = Stream.contents s.
Proof. destruct s; reflexivity. Qed.

Lemma pos_setPos (p : nat) (s : MsfStream) : Stream.pos (Stream.setPos p s) = p.
Proof. destruct s; reflexivity. Qed.

Lemma read_length (n : Z) (s : MsfStream) :
  (List.length (fst (Stream.read n s)) <= Stream.remaining s)%nat.
Proof.
  unfold Stream.read, Stream.remaining. cbn [fst].
  rewrite length_firstn. lia.
Qed.

(** [assert(bytesRead <= kPageSize)] holds at every iteration. *)
Lemma read_at_most (s : MsfStream) :
  Z.of_nat (List.length (fst (Stream.read kPageSize s))) <= kPageSize.
Proof.
  unfold Stream.read. cbn [fst]. rewrite length_firstn.
  change kPageSize with (Z.of_nat (Z.to_nat kPageSize)) at 2. lia.
Qed.

Lemma read_remaining (n : Z) (s : MsfStream) :
  Stream.remaining (snd (Stream.read n s))
  = (Stream.remaining s - List.length (fst (Stream.read n s)))%nat.
Proof.
  unfold Stream.read, Stream.remaining. cbn [fst snd].
  rewrite contents_setPos, pos_setPos, !length_skipn. lia.
Qed.

(** Fuel beyond the bytes that remain changes nothing: the loop has left
    through its test by then. *)
Lemma writeStream_loop_fuel (fuel1 : nat) :
  forall (fuel2 : nat) (s : MsfStream) (w : Writer),
    (Stream.remaining s <= fuel1)%nat ->
    (Stream.remaining s <= fuel2)%nat ->
    writeStream_loop fuel1 s w = writeStream_loop fuel2 s w.
Proof.
  assert (Hstop : forall fuel s w,
             Stream.remaining s = 0%nat -> writeStream_loop fuel s w = w).
  { intros [|fuel] s w Hrem; cbn [writeStream_loop]; [reflexivity |].
    pose proof (read_length kPageSize s) as Hlen.
    destruct (Stream.read kPageSize s) as [bytes s']. cbn [fst] in Hlen.
    replace (List.length bytes) with 0%nat by lia. reflexivity. }
  induction fuel1 as [|fuel1 IH]; intros fuel2 s w H1 H2.
  - rewrite !Hstop by lia. reflexivity.
  - destruct fuel2 as [|fuel2]; [rewrite !Hstop by lia; reflexivity |].
    cbn [writeStream_loop].
    pose proof (read_remaining kPageSize s) as Hrem.
    destruct (Stream.read kPageSize s) as [bytes s']. cbn [fst snd] in Hrem.
    destruct (Z.of_nat (List.length bytes) =? 0) eqn:Hz; [reflexivity |].
    apply Z.eqb_neq in Hz. apply IH; lia.
Qed.

Lemma writeStream_enough_fuel (s : MsfStream) (w : Writer) (extra : nat) :
  Stream.length s <> 0 ->
  writeStream (Some s) w
  = writeStream_loop (Stream.remaining (Stream.setPos 0 s) + extra)
      (Stream.setPos 0 s) w.
Proof.
  intros Hlen. cbn [writeStream].
  apply Z.eqb_neq in Hlen. rewrite Hlen.
  apply writeStream_loop_fuel; lia.
Qed.

(** ** The page lists in the stream table *)

Lemma writeStream_loop_pages (fuel : nat) :
  forall (s : MsfStream) (w : Writer),
    pagesWritten (writeStream_loop fuel s w)
    = pagesWritten w ++ flat_map emitted (writeStream_loop_checks fuel s w).
Proof.
  induction fuel as [|fuel IH]; intros s w;
    cbn [writeStream_loop writeStream_loop_checks].
  - cbn. now rewrite app_nil_r.
  - destruct (Stream.read kPageSize s) as [bytes s'].
    destruct (Z.of_nat (List.length bytes) =? 0).
    + cbn. now rewrite app_nil_r.
    + rewrite IH, writeStream_body_pages. cbn [flat_map].
      now rewrite app_assoc.
Qed.

Lemma writeStream_pages (stream : MsfStreamRef) (w : Writer) :
  pagesWritten (writeStream stream w)
  = pagesWritten w ++ flat_map emitted (writeStream_checks stream w).
Proof.
  destruct stream as [s|]; cbn [writeStream writeStream_checks].
  - destruct (Stream.length s =? 0).
    + cbn. now rewrite app_nil_r.
    + apply writeStream_loop_pages.
  - cbn. now rewrite app_nil_r.
Qed.

Lemma writeStreams_pages (streams : list MsfStreamRef) :
  forall w : Writer,
    pagesWritten (writeStreams streams w)
    = pagesWritten w ++ flat_map emitted (writeStreams_checks streams w).
Proof.
  induction streams as [|s streams IH]; intros w; cbn.
  - now rewrite app_nil_r.
  - fold (writeStreams streams (writeStream s w)).
    rewrite IH, writeStream_pages, flat_map_app. now rewrite app_assoc.
Qed.

Lemma pushSizes_map (streams : list MsfStreamRef) :
  forall st : list Z, pushSizes streams st = st ++ map recorded_size streams.
Proof.
  unfold pushSizes.
  induction streams as [|s streams IH]; intros st; cbn.
  - now rewrite app_nil_r.
  - rewrite IH. destruct s; cbn; now rewrite <- app_assoc.
Qed.

(** The layout of the vector streamTable when write returns: the count, the
    sizes in the order of the streams, then the page numbers pushed at each
    iteration. *)
Lemma MsfFile_write_streamTable (m : MsfFile) (f : OutFile) :
  streamTable (MsfFile_write m f)
  = uint32 (streamCount m) :: map recorded_size (_streams m)
      ++ flat_map emitted (writeStreams_checks (_streams m) (write_start m f)).
Proof.
  unfold MsfFile_write. cbn [streamTable].
  rewrite writeStreams_pages. unfold write_start at 1. cbn [pagesWritten].
  now rewrite pushSizes_map.
Qed.

(** ** Null and empty streams *)

Lemma writeStream_null_or_empty (stream : MsfStreamRef) :
  (stream = nullptr \/ exists s, stream = Some s /\ Stream.length s = 0) ->
  recorded_size stream = 0
  /\ forall w : Writer,
       writeStream stream w = w /\ writeStream_checks stream w = [].
Proof.
  intros [-> | (s & -> & Hlen)]; cbn.
  - auto.
  - rewrite Hlen. cbn. auto.
Qed.

Lemma writeStreams_app (l1 l2 : list MsfStreamRef) (w : Writer) :
  writeStreams (l1 ++ l2) w = writeStreams l2 (writeStreams l1 w).
Proof. apply fold_left_app. Qed.

(** Two vectors of streams that differ in one entry, null or empty in both,
    are written the same. *)
Lemma MsfFile_write_null_or_empty (before after : list MsfStreamRef)
    (x y : MsfStreamRef) (f : OutFile) :
  (x = nullptr \/ exists s, x = Some s /\ Stream.length s = 0) ->
  (y = nullptr \/ exists s, y = Some s /\ Stream.length s = 0) ->
  MsfFile_write {| _streams := before ++ x :: after |} f
  = MsfFile_write {| _streams := before ++ y :: after |} f.
Proof.
  intros Hx Hy.
  destruct (writeStream_null_or_empty x Hx) as [Hsx Hwx].
  destruct (writeStream_null_or_empty y Hy) as [Hsy Hwy].
  assert (Hstart :
            write_start {| _streams := before ++ x :: after |} f
            = write_start {| _streams := before ++ y :: after |} f).
  { unfold write_start, streamCount. cbn [_streams].
    rewrite !pushSizes_map, !map_app, !length_app. cbn [map List.length].
    now rewrite Hsx, Hsy. }
  unfold MsfFile_write. cbn [_streams]. rewrite Hstart.
  rewrite !writeStreams_app. cbn [writeStreams fold_left].
  now rewrite (proj1 (Hwx _)), (proj1 (Hwy _)).
Qed.

(** C7. In MsfFile::write a stream of length 0 and a null entry are handled
    alike: writeStream returns at once for either (no page, no page number,
    counter unchanged), the size recorded at its index is 0, the sizes
    follow the count in the order of the streams, and replacing the entry
    by a null pointer or by any empty stream changes nothing in what write
    does. *)
Theorem null_and_empty_streams_are_skipped (m : MsfFile) (f : OutFile)
    (i : nat) (stream : MsfStreamRef) :
  nth_error (_streams m) i = Some stream ->
  (stream = nullptr \/ exists s, stream = Some s /\ Stream.length s = 0) ->
  (forall w : Writer, writeStream stream w = w)
  /\ nth_error (streamTable (MsfFile_write m f)) (1 + i) = Some 0
  /\ firstn (1 + List.length (_streams m)) (streamTable (MsfFile_write m f))
     = uint32 (streamCount m) :: map recorded_size (_streams m)
  /\ (forall (before after : list MsfStreamRef) (other : MsfStreamRef),
        _streams m = before ++ stream :: after ->
        (other = nullptr \/ exists s, other = Some s /\ Stream.length s = 0) ->
        MsfFile_write m f
        = MsfFile_write {| _streams := before ++ other :: after |} f).
Proof.
  intros Hi Hstream.
  destruct (writeStream_null_or_empty stream Hstream) as [Hsize Hskip].
  rewrite MsfFile_write_streamTable.
  split; [| split; [| split]].
  - intros w. apply Hskip.
  - cbn [Nat.add nth_error].
    rewrite nth_error_app1
      by (rewrite length_map; apply nth_error_Some; congruence).
    rewrite nth_error_map, Hi. cbn. now rewrite Hsize.
  - cbn [Nat.add firstn]. f_equal.
    rewrite firstn_app, length_map, Nat.sub_diag, firstn_O, app_nil_r.
    apply firstn_all2. rewrite length_map. lia.
  - intros before after other Hm Hother.
    destruct m as [streams]. cbn [_streams] in Hm. subst streams.
    now apply MsfFile_write_null_or_empty.
Qed.

Lemma null_and_empty_streams_are_skipped_witness :
  nth_error (_streams Inputs.holes) 1 = Some nullptr
  /\ (forall w : Writer, writeStream nullptr w = w)
  /\ nth_error (streamTable (MsfFile_write Inputs.holes [])) (1 + 1) = Some 0
  /\ firstn (1 + List.length (_streams Inputs.holes))
       (streamTable (MsfFile_write Inputs.holes []))
     = uint32 (streamCount Inputs.holes)
         :: map recorded_size (_streams Inputs.holes)
  /\ (forall (before after : list MsfStreamRef) (other : MsfStreamRef),
        _streams Inputs.holes = before ++ nullptr :: after ->
        (other = nullptr \/ exists s, other = Some s /\ Stream.length s = 0) ->
        MsfFile_write Inputs.holes []
        = MsfFile_write {| _streams := before ++ other :: after |} []).
Proof.
  split; [reflexivity |].
  apply (null_and_empty_streams_are_skipped Inputs.holes [] 1 nullptr).
  - reflexivity.
  - left. reflexivity.
Defined.

(** ** The page counter *)

Lemma uint32_mod_page (x : Z) : uint32 x mod kPageSize = x mod kPageSize.
Proof.
  unfold uint32. apply Z.mod_mod_divide. exists 1048576. reflexivity.
Qed.

Lemma add_mod_page (c k : Z) :
  (c + k) mod kPageSize = (c mod kPageSize + k) mod kPageSize.
Proof. symmetry. apply Z.add_mod_idemp_l. discriminate. Qed.

Lemma mod_page_bound (c : Z) : 0 <= c mod kPageSize < 4096.
Proof. apply Z.mod_pos_bound. reflexivity. Qed.

Lemma uint32_bound (x : Z) : 0 <= uint32 x < uint32_max.
Proof. apply Z.mod_pos_bound. reflexivity. Qed.

Lemma isFpmPage_true (c : Z) :
  isFpmPage c kPageSize = true -> c mod kPageSize = 1 \/ c mod kPageSize = 2.
Proof.
  rewrite isFpmPage_default, orb_true_iff, !Z.eqb_eq. auto.
Qed.

Lemma isFpmPage_false (c : Z) :
  isFpmPage c kPageSize = false -> c mod kPageSize <> 1 /\ c mod kPageSize <> 2.
Proof.
  rewrite isFpmPage_default, orb_false_iff, !Z.eqb_neq. auto.
Qed.

(** At a reserved slot the three increments do not wrap. *)
Lemma reserved_cursor (c : Z) :
  valid_cursor c -> isFpmPage c kPageSize = true ->
  c mod kPageSize = 1
  /\ uint32 (c + 1) = c + 1
  /\ uint32 (c + 1 + 1) = c + 2
  /\ uint32 (c + 2 + 1) = c + 3
  /\ c + 3 < uint32_max.
Proof.
  intros ((Hlo & Hhi) & H2 & _) Hfpm. apply isFpmPage_true in Hfpm.
  assert (H1 : c mod kPageSize = 1)
    by (destruct Hfpm; [assumption | contradiction]).
  assert (Hq : c / kPageSize < 1048576)
    by (apply Z.div_lt_upper_bound; [reflexivity | exact Hhi]).
  pose proof (Z.div_mod c kPageSize ltac:(discriminate)) as Hdiv.
  rewrite H1 in Hdiv.
  assert (Hsmall : c + 3 < uint32_max).
  { change uint32_max with (kPageSize * 1048576).
    change kPageSize with 4096 in *. lia. }
  unfold uint32. rewrite !(Z.mod_small _ uint32_max) by lia.
  repeat split; auto; lia.
Qed.

Lemma writeStream_body_cursor (bytes : list byte) (w : Writer) :
  valid_cursor (wpageCount w) ->
  valid_cursor (wpageCount (writeStream_body bytes w)).
Proof.
  intros Hc. unfold writeStream_body.
  destruct (isFpmPage (wpageCount w) kPageSize) eqn:Hfpm.
  - destruct (reserved_cursor _ Hc Hfpm) as (H1 & E1 & E2 & E3 & Hsmall).
    cbn [writePage wpageCount]. rewrite E1, E2, E3.
    destruct Hc as ((Hlo & _) & _).
    unfold valid_cursor. rewrite add_mod_page, H1.
    change ((1 + 3) mod kPageSize) with 4. repeat split; try lia.
  - apply isFpmPage_false in Hfpm. destruct Hfpm as [N1 N2].
    destruct Hc as (_ & _ & N3).
    cbn [writePage wpageCount]. unfold valid_cursor.
    rewrite uint32_mod_page, add_mod_page.
    pose proof (mod_page_bound (wpageCount w)) as Hr.
    pose proof (uint32_bound (wpageCount w + 1)) as Hb.
    set (r := wpageCount w mod kPageSize) in *.
    change kPageSize with 4096.
    destruct (Z.eq_dec r 4095) as [-> | Hlast].
    + change ((4095 + 1) mod 4096) with 0. repeat split; try lia.
    + rewrite Z.mod_small by lia. repeat split; lia.
Qed.

Lemma writeStream_loop_cursor (fuel : nat) :
  forall (s : MsfStream) (w : Writer),
    valid_cursor (wpageCount w) ->
    Forall valid_cursor (writeStream_loop_checks fuel s w)
    /\ valid_cursor (wpageCount (writeStream_loop fuel s w)).
Proof.
  induction fuel as [|fuel IH]; intros s w Hc;
    cbn [writeStream_loop writeStream_loop_checks]; [auto |].
  destruct (Stream.read kPageSize s) as [bytes s'].
  destruct (Z.of_nat (List.length bytes) =? 0); [auto |].
  destruct (IH s' _ (writeStream_body_cursor bytes w Hc)) as [Hchecks Hend].
  auto.
Qed.

Lemma writeStream_cursor (stream : MsfStreamRef) (w : Writer) :
  valid_cursor (wpageCount w) ->
  Forall valid_cursor (writeStream_checks stream w)
  /\ valid_cursor (wpageCount (writeStream stream w)).
Proof.
  intros Hc. destruct stream as [s|]; cbn [writeStream writeStream_checks];
    [| auto].
  destruct (Stream.length s =? 0); [auto |].
  now apply writeStream_loop_cursor.
Qed.

Lemma writeStreams_cursor (streams : list MsfStreamRef) :
  forall w : Writer,
    valid_cursor (wpageCount w) ->
    Forall valid_cursor (writeStreams_checks streams w)
    /\ valid_cursor (wpageCount (writeStreams streams w)).
Proof.
  induction streams as [|s streams IH]; intros w Hc; cbn; [auto |].
  destruct (writeStream_cursor s w Hc) as [Hs Hc'].
  destruct (IH _ Hc') as [Hrest Hend].
  split; [apply Forall_app; auto | exact Hend].
Qed.

Lemma MsfFile_write_cursor (m : MsfFile) (f : OutFile) :
  Forall valid_cursor (MsfFile_write_checks m f).
Proof.
  unfold MsfFile_write_checks. cbv zeta.
  assert (H4 : valid_cursor (wpageCount (write_start m f)))
    by (cbn; unfold valid_cursor; cbn; repeat split; lia).
  destruct (writeStreams_cursor (_streams m) _ H4) as [Hstreams Hend].
  apply Forall_app. split; [exact Hstreams |].
  apply writeStream_cursor. exact Hend.
Qed.

(** What one iteration does at a counter value the tests see. *)
Lemma writeStream_body_at (c : Z) (bytes : list byte) (file : OutFile)
    (pages : list Z) :
  valid_cursor c ->
  let w := {| wfile := file; pagesWritten := pages; wpageCount := c |} in
  if isFpmPage c kPageSize then
    c mod kPageSize = 1
    /\ wfile (writeStream_body bytes w)
       = file ++ [kBlankPage; kBlankPage] ++ [kBlankPage]
    /\ wpageCount (writeStream_body bytes w) = c + 2 + 1
  else
    wfile (writeStream_body bytes w) = file ++ [kBlankPage]
    /\ wpageCount (writeStream_body bytes w) = uint32 (c + 1).
Proof.
  intros Hc w. unfold writeStream_body. subst w. cbn [wpageCount].
  destruct (isFpmPage c kPageSize) eqn:Hfpm.
  - destruct (reserved_cursor _ Hc Hfpm) as (H1 & E1 & E2 & E3 & _).
    cbn [writePage wpageCount wfile]. unfold fwrite.
    rewrite E1, E2, E3, <- !app_assoc. repeat split; auto. lia.
  - cbn [writePage wpageCount wfile]. auto.
Qed.

(** C8. In every run of MsfFile::write, at each test made before a page is
    emitted the counter is not 2 modulo the page size. When the test finds a
    reserved slot the counter is 1 modulo the page size and the iteration
    writes exactly two blank pages, one after the other, then the page of
    the stream, moving the counter by 2 and by 1; otherwise it writes the
    one page and moves the counter by 1. The counter starts at 4. *)
Theorem reserved_pages_come_in_pairs (m : MsfFile) (f : OutFile) :
  wpageCount (write_start m f) = 4
  /\ Forall
       (fun c : Z =>
          c mod kPageSize <> 2
          /\ forall (bytes : list byte) (file : OutFile) (pages : list Z),
               let w := {| wfile := file; pagesWritten := pages;
                           wpageCount := c |} in
               if isFpmPage c kPageSize then
                 c mod kPageSize = 1
                 /\ wfile (writeStream_body bytes w)
                    = file ++ [kBlankPage; kBlankPage] ++ [kBlankPage]
                 /\ wpageCount (writeStream_body bytes w) = c + 2 + 1
               else
                 wfile (writeStream_body bytes w) = file ++ [kBlankPage]
                 /\ wpageCount (writeStream_body bytes w) = uint32 (c + 1))
       (MsfFile_write_checks m f).
Proof.
  split; [reflexivity |].
  eapply Forall_impl; [| apply MsfFile_write_cursor].
  intros c Hc. split.
  - apply Hc.
  - intros bytes file pages. apply writeStream_body_at. exact Hc.
Qed.

(** The tests of the run on 4094 one-byte streams: one per stream, the last
    at 4097. *)
Example checks_of_many :
  MsfFile_write_checks Inputs.many []
  = map Z.of_nat (seq 4 (Z.to_nat 4093)) ++ [4097].
Proof. vm_compute. reflexivity. Qed.

(** * Further properties *)

(** ** addStream, replaceStream and getStream together *)

Lemma vector_set_length (l : list MsfStreamRef) :
  forall (n : nat) (x : MsfStreamRef),
    List.length (vector_set l n x) = List.length l.
Proof.
  induction l as [|y l IH]; intros [|n] x; cbn; auto.
Qed.

Lemma vector_set_nth_same (l : list MsfStreamRef) :
  forall (n : nat) (x : MsfStreamRef),
    (n < List.length l)%nat -> nth n (vector_set l n x) nullptr = x.
Proof.
  induction l as [|y l IH]; intros [|n] x Hn; cbn in *; try lia; auto.
  apply IH. lia.
Qed.

Lemma vector_set_nth_other (l : list MsfStreamRef) :
  forall (n j : nat) (x : MsfStreamRef),
    j <> n -> nth j (vector_set l n x) nullptr = nth j l nullptr.
Proof.
  induction l as [|y l IH]; intros [|n] [|j] x Hj; cbn; auto; try congruence.
Qed.

(** addStream returns the index at which getStream finds the stream just
    added; the count grows by one and the streams stored before keep their
    indices. *)
Theorem addStream_then_getStream (stream : MsfStream) (m : MsfFile) :
  let m' := fst (addStream stream m) in
  let index := snd (addStream stream m) in
  index = streamCount m
  /\ streamCount m' = streamCount m + 1
  /\ getStream index m' = Some stream
  /\ forall i : Z, 0 <= i < streamCount m -> getStream i m' = getStream i m.
Proof.
  cbv zeta. unfold addStream, streamCount, getStream. cbn [fst snd _streams].
  rewrite length_app. cbn [List.length].
  split; [lia | split; [lia | split]].
  - replace (Z.of_nat (List.length (_streams m) + 1) - 1
             <? Z.of_nat (List.length (_streams m) + 1)) with true
      by (symmetry; apply Z.ltb_lt; lia).
    replace (Z.to_nat (Z.of_nat (List.length (_streams m) + 1) - 1))
      with (List.length (_streams m)) by lia.
    now rewrite nth_middle.
  - intros i Hi.
    replace (i <? Z.of_nat (List.length (_streams m) + 1)) with true
      by (symmetry; apply Z.ltb_lt; lia).
    replace (i <? Z.of_nat (List.length (_streams m))) with true
      by (symmetry; apply Z.ltb_lt; lia).
    apply app_nth1. lia.
Qed.

Lemma addStream_then_getStream_witness :
  0 <= 0 < streamCount Inputs.single
  /\ getStream 0 (fst (addStream Inputs.one_byte Inputs.single))
     = getStream 0 Inputs.single.
Proof.
  assert (H : 0 <= 0 < streamCount Inputs.single) by (cbn; lia).
  split; [exact H |].
  exact (proj2 (proj2 (proj2
           (addStream_then_getStream Inputs.one_byte Inputs.single))) 0 H).
Defined.

(** replaceStream at an index below streamCount() stores the reference
    (null included) where getStream finds it, and changes neither the count
    nor any other entry; at an index from streamCount() on it indexes the
    vector out of range. *)
Theorem replaceStream_then_getStream (index : Z) (stream : MsfStreamRef)
    (m : MsfFile) :
  0 <= index ->
  (index < streamCount m ->
     exists m' : MsfFile,
       replaceStream index stream m = Some m'
       /\ getStream index m' = stream
       /\ streamCount m' = streamCount m
       /\ forall j : Z, 0 <= j -> j <> index -> getStream j m' = getStream j m)
  /\ (streamCount m <= index -> replaceStream index stream m = None).
Proof.
  intros H0. unfold replaceStream, streamCount. split; intros H.
  - apply Z.ltb_lt in H as Hb. rewrite Hb. eexists. split; [reflexivity |].
    unfold getStream. cbn [_streams]. rewrite vector_set_length, Hb.
    split; [| split].
    + apply vector_set_nth_same. lia.
    + reflexivity.
    + intros j Hj Hne.
      destruct (j <? Z.of_nat (List.length (_streams m))); [| reflexivity].
      apply vector_set_nth_other. lia.
  - apply Z.ltb_ge in H. now rewrite H.
Qed.

Lemma replaceStream_then_getStream_witness :
  (0 <= 1 /\ 1 < streamCount Inputs.holes
   /\ exists m' : MsfFile,
        replaceStream 1 (Some Inputs.one_byte) Inputs.holes = Some m'
        /\ getStream 1 m' = Some Inputs.one_byte
        /\ streamCount m' = streamCount Inputs.holes
        /\ forall j : Z, 0 <= j -> j <> 1 ->
                         getStream j m' = getStream j Inputs.holes)
  /\ (0 <= 3 /\ streamCount Inputs.holes <= 3
      /\ replaceStream 3 nullptr Inputs.holes = None).
Proof.
  assert (H1 : 0 <= 1) by lia.
  assert (H3 : 0 <= 3) by lia.
  assert (Hin : 1 < streamCount Inputs.holes) by (cbn; lia).
  assert (Hout : streamCount Inputs.holes <= 3) by (cbn; lia).
  split; (split; [assumption | split; [assumption |]]).
  - exact (proj1 (replaceStream_then_getStream 1 (Some Inputs.one_byte)
                    Inputs.holes H1) Hin).
  - exact (proj2 (replaceStream_then_getStream 3 nullptr Inputs.holes H3) Hout).
Defined.

(** ** The counter, the file and the page numbers move together *)

Lemma uint32_add_l (a b : Z) : uint32 (uint32 a + b) = uint32 (a + b).
Proof. unfold uint32. apply Z.add_mod_idemp_l. discriminate. Qed.

Lemma wrote_refl (w : Writer) :
  0 <= wpageCount w < uint32_max -> wrote 0 w w.
Proof.
  intros Hc. unfold wrote. cbn. rewrite !app_nil_r, Z.add_0_r.
  repeat split. symmetry. now apply uint32_small.
Qed.

Lemma seq_from (n len : nat) : seq n len = map (Nat.add n) (seq 0 len).
Proof.
  induction n as [|n IH].
  - cbn. symmetry. apply map_id.
  - rewrite <- seq_shift, IH, map_map. reflexivity.
Qed.

Lemma wrote_trans (n1 n2 : nat) (w1 w2 w3 : Writer) :
  wrote n1 w1 w2 -> wrote n2 w2 w3 -> wrote (n1 + n2) w1 w3.
Proof.
  intros (Hf1 & Hp1 & Hc1) (Hf2 & Hp2 & Hc2). unfold wrote.
  rewrite Hf2, Hf1, Hp2, Hp1, Hc2, Hc1. repeat split.
  - now rewrite repeat_app, app_assoc.
  - rewrite seq_app, map_app, <- app_assoc. do 2 apply f_equal.
    cbn [Nat.add]. rewrite (seq_from n1 n2), map_map.
    apply map_ext. intros k.
    rewrite uint32_add_l. f_equal. lia.
  - rewrite uint32_add_l. f_equal. lia.
Qed.

Lemma wrote_bound (n : nat) (w w' : Writer) :
  wrote n w w' -> 0 <= wpageCount w' < uint32_max.
Proof. intros (_ & _ & ->). apply uint32_bound. Qed.

Lemma writePage_wrote (data : list byte) (ps : Z) (w : Writer) :
  0 <= wpageCount w < uint32_max ->
  wrote 1 w (writePage data ps w).
Proof.
  intros Hc. unfold wrote, writePage, fwrite. cbn.
  rewrite Z.add_0_r, uint32_small by exact Hc. auto.
Qed.

Lemma writeStream_body_wrote (bytes : list byte) (w : Writer) :
  0 <= wpageCount w < uint32_max ->
  exists n : nat, wrote n w (writeStream_body bytes w).
Proof.
  intros Hc. unfold writeStream_body.
  destruct (isFpmPage (wpageCount w) kPageSize).
  - exists (1 + 1 + 1)%nat.
    pose proof (writePage_wrote kBlankPage kPageSize w Hc) as H1.
    pose proof (writePage_wrote kBlankPage kPageSize _ (wrote_bound _ _ _ H1))
      as H2.
    pose proof (wrote_trans _ _ _ _ _ H1 H2) as H12.
    eapply wrote_trans; [exact H12 |].
    apply writePage_wrote. exact (wrote_bound _ _ _ H12).
  - exists 1%nat. now apply writePage_wrote.
Qed.

Lemma writeStream_loop_wrote (fuel : nat) :
  forall (s : MsfStream) (w : Writer),
    0 <= wpageCount w < uint32_max ->
    exists n : nat, wrote n w (writeStream_loop fuel s w).
Proof.
  induction fuel as [|fuel IH]; intros s w Hc; cbn [writeStream_loop].
  - exists 0%nat. now apply wrote_refl.
  - destruct (Stream.read kPageSize s) as [bytes s'].
    destruct (Z.of_nat (List.length bytes) =? 0).
    + exists 0%nat. now apply wrote_refl.
    + destruct (writeStream_body_wrote bytes w Hc) as [n1 H1].
      destruct (IH s' (writeStream_body bytes w) (wrote_bound _ _ _ H1))
        as [n2 H2].
      exists (n1 + n2)%nat. eapply wrote_trans; eauto.
Qed.

Lemma writeStream_wrote (stream : MsfStreamRef) (w : Writer) :
  0 <= wpageCount w < uint32_max ->
  exists n : nat, wrote n w (writeStream stream w).
Proof.
  intros Hc. destruct stream as [s|]; cbn [writeStream].
  - destruct (Stream.length s =? 0).
    + exists 0%nat. now apply wrote_refl.
    + now apply writeStream_loop_wrote.
  - exists 0%nat. now apply wrote_refl.
Qed.

Lemma writeStreams_wrote (streams : list MsfStreamRef) :
  forall w : Writer,
    0 <= wpageCount w < uint32_max ->
    exists n : nat, wrote n w (writeStreams streams w).
Proof.
  induction streams as [|s streams IH]; intros w Hc; cbn.
  - exists 0%nat. now apply wrote_refl.
  - destruct (writeStream_wrote s w Hc) as [n1 H1].
    destruct (IH (writeStream s w) (wrote_bound _ _ _ H1)) as [n2 H2].
    exists (n1 + n2)%nat. eapply wrote_trans; eauto.
Qed.

(** What MsfFile::write leaves, with [n] the number of pages written after
    the preamble. *)
Lemma MsfFile_write_wrote (m : MsfFile) (f : OutFile) :
  exists n : nat,
    out_file (MsfFile_write m f) = f ++ repeat kBlankPage (4 + n)
    /\ streamTable (MsfFile_write m f)
       = uint32 (streamCount m) :: map recorded_size (_streams m)
           ++ map (fun k : nat => uint32 (4 + Z.of_nat k)) (seq 0 n)
    /\ out_pageCount (MsfFile_write m f) = uint32 (4 + Z.of_nat n).
Proof.
  destruct (MsfFile_write_last_step m f) as (Hf & Ht & _ & Hc).
  rewrite Hf, Ht, Hc.
  destruct (writeStreams_wrote (_streams m) (write_start m f)) as [n Hn].
  { cbn. unfold uint32_max. lia. }
  exists n. destruct Hn as (Hwf & Hwp & Hwc).
  rewrite Hwf, Hwp, Hwc. unfold write_start. cbn [wfile pagesWritten wpageCount].
  rewrite writePreamble_4, pushSizes_map, <- app_assoc, <- repeat_app.
  repeat split.
Qed.

(** When write returns, the counter is the number of pages of the file (as
    a uint32_t), for a file that was empty when write was called. *)
Theorem write_counter_is_page_count (m : MsfFile) :
  out_pageCount (MsfFile_write m [])
  = uint32 (Z.of_nat (List.length (out_file (MsfFile_write m [])))).
Proof.
  destruct (MsfFile_write_wrote m []) as (n & Hf & _ & Hc).
  rewrite Hf, Hc. cbn [app]. rewrite repeat_length. f_equal. lia.
Qed.

(** The vector streamTable when write returns: the count, the sizes in the
    order of the streams, then the number of every page written after the
    preamble, 4, 5, 6, ... without a gap: the numbers of the reserved pages
    are in it like those of the pages of the streams. *)
Theorem write_lists_every_page (m : MsfFile) :
  let r := MsfFile_write m [] in
  streamTable r
  = uint32 (streamCount m) :: map recorded_size (_streams m)
      ++ map (fun k : nat => uint32 (4 + Z.of_nat k))
           (seq 0 (List.length (out_file r) - 4)).
Proof.
  cbv zeta. destruct (MsfFile_write_wrote m []) as (n & Hf & Ht & _).
  rewrite Ht, Hf. cbn [app]. rewrite repeat_length.
  replace (4 + n - 4)%nat with n by lia. reflexivity.
Qed.

(** ** How many pages a stream takes *)

Lemma pageCount_step (rem : Z) :
  0 < rem ->
  pageCount kPageSize rem
  = 1 + pageCount kPageSize (rem - Z.min kPageSize rem).
Proof.
  intros Hrem. unfold pageCount. change kPageSize with 4096.
  destruct (Z.le_gt_cases rem 4096) as [Hle | Hgt].
  - rewrite Z.min_r by lia. replace (rem - rem) with 0 by lia.
    change ((0 + 4096 - 1) / 4096) with 0.
    replace (rem + 4096 - 1) with (1 * 4096 + (rem - 1)) by lia.
    rewrite Z.div_add_l by lia. rewrite Z.div_small by lia. lia.
  - rewrite Z.min_l by lia.
    replace (rem + 4096 - 1) with (1 * 4096 + (rem - 4096 + 4096 - 1)) by lia.
    rewrite Z.div_add_l by lia. reflexivity.
Qed.

Lemma read_length_min (s : MsfStream) :
  Z.of_nat (List.length (fst (Stream.read kPageSize s)))
  = Z.min kPageSize (Z.of_nat (Stream.remaining s)).
Proof.
  unfold Stream.read, Stream.remaining. cbn [fst]. rewrite length_firstn.
  change kPageSize with 4096. lia.
Qed.

Lemma writeStream_loop_iterations (fuel : nat) :
  forall (s : MsfStream) (w : Writer),
    (Stream.remaining s <= fuel)%nat ->
    Z.of_nat (List.length (writeStream_loop_checks fuel s w))
    = pageCount kPageSize (Z.of_nat (Stream.remaining s)).
Proof.
  induction fuel as [|fuel IH]; intros s w Hfuel;
    cbn [writeStream_loop_checks].
  - replace (Stream.remaining s) with 0%nat by lia. reflexivity.
  - pose proof (read_length_min s) as Hlen.
    pose proof (read_remaining kPageSize s) as Hrem.
    destruct (Stream.read kPageSize s) as [bytes s']. cbn [fst snd] in *.
    destruct (Z.of_nat (List.length bytes) =? 0) eqn:Hz.
    + apply Z.eqb_eq in Hz.
      assert (Stream.remaining s = 0%nat)
        by (change kPageSize with 4096 in Hlen; lia).
      replace (Stream.remaining s) with 0%nat. reflexivity.
    + apply Z.eqb_neq in Hz. cbn [List.length].
      rewrite Nat2Z.inj_succ, IH by lia.
      rewrite (pageCount_step (Z.of_nat (Stream.remaining s)))
        by (change kPageSize with 4096 in Hlen; lia).
      rewrite Hrem, Nat2Z.inj_sub by (change kPageSize with 4096 in Hlen; lia).
      rewrite Hlen. lia.
Qed.

Lemma empty_contents (s : MsfStream) :
  Stream.length s = 0 -> Stream.contents s = [].
Proof.
  destruct s as [data p | f ps len pages p]; cbn; intros H.
  - destruct data; [reflexivity | discriminate].
  - subst len. reflexivity.
Qed.

(** The tests of one call on a stream: one for every page of the bytes the
    stream delivers, whatever the position the stream was left at. *)
Lemma writeStream_iterations (s : MsfStream) (w : Writer) :
  Z.of_nat (List.length (writeStream_checks (Some s) w))
  = pageCount kPageSize (Z.of_nat (List.length (Stream.contents s))).
Proof.
  cbn [writeStream_checks].
  destruct (Stream.length s =? 0) eqn:Hz.
  - apply Z.eqb_eq in Hz. now rewrite (empty_contents s Hz).
  - rewrite writeStream_loop_iterations by lia.
    unfold Stream.remaining. now rewrite contents_setPos, pos_setPos.
Qed.

Lemma emitted_count (checks : list Z) :
  List.length (flat_map emitted checks)
  = (List.length checks
     + 2 * List.length (filter (fun c => isFpmPage c kPageSize) checks))%nat.
Proof.
  induction checks as [|c checks IH]; [reflexivity |].
  cbn [flat_map filter]. rewrite length_app, IH. unfold emitted.
  destruct (isFpmPage c kPageSize); cbn [List.length]; lia.
Qed.

Lemma wrote_count (n : nat) (w w' : Writer) (l : list Z) :
  wrote n w w' -> pagesWritten w' = pagesWritten w ++ l -> n = List.length l.
Proof.
  intros (_ & Hpages & _) Hl. rewrite Hl in Hpages.
  apply app_inv_head in Hpages. subst l.
  now rewrite length_map, length_seq.
Qed.

(** What one call of writeStream writes. Its loop runs once for every page
    of the bytes the stream delivers, ceil(bytes / 4096) times, and not at
    all for a null pointer; the call writes one page for each iteration and
    two more for each iteration that starts at a reserved slot: the file
    grows by that many blank pages, as many successive page numbers are
    pushed and the counter moves by as much. *)
Theorem writeStream_writes_pages (stream : MsfStreamRef) (w : Writer) :
  0 <= wpageCount w < uint32_max ->
  let checks := writeStream_checks stream w in
  let reserved :=
    List.length (filter (fun c => isFpmPage c kPageSize) checks) in
  Z.of_nat (List.length checks)
  = match stream with
    | Some s => pageCount kPageSize (Z.of_nat (List.length (Stream.contents s)))
    | None => 0
    end
  /\ wrote (List.length checks + 2 * reserved) w (writeStream stream w).
Proof.
  intros Hc. cbv zeta. split.
  - destruct stream as [s|]; [apply writeStream_iterations | reflexivity].
  - destruct (writeStream_wrote stream w Hc) as [n Hn].
    rewrite <- emitted_count.
    rewrite <- (wrote_count n w _ _ Hn (writeStream_pages stream w)).
    exact Hn.
Qed.

Lemma writeStream_writes_pages_witness :
  0 <= 4097 < uint32_max
  /\ wrote (1 + 2 * 1) (mkWriter [] [] 4097)
       (writeStream (Some Inputs.one_byte) (mkWriter [] [] 4097)).
Proof.
  assert (H : 0 <= wpageCount (mkWriter [] [] 4097) < uint32_max)
    by (cbn; unfold uint32_max; lia).
  split; [exact H |].
  exact (proj2 (writeStream_writes_pages (Some Inputs.one_byte)
                  (mkWriter [] [] 4097) H)).
Defined.

(** ** Where the pages of the streams land *)

Lemma last_app_nonempty (l l' : list Z) (d : Z) :
  l' <> [] -> last (l ++ l') d = last l' d.
Proof.
  intros Hne. induction l as [|x l IH]; [reflexivity |].
  cbn [app last]. rewrite IH.
  destruct (l ++ l') eqn:E; [| reflexivity].
  apply app_eq_nil in E. destruct E. contradiction.
Qed.

Lemma emitted_last (c : Z) :
  valid_cursor c -> isFpmPage (last (emitted c) 0) kPageSize = false.
Proof.
  intros Hc. unfold emitted.
  destruct (isFpmPage c kPageSize) eqn:Hfpm; [| exact Hfpm].
  destruct (reserved_cursor c Hc Hfpm) as (H1 & E1 & E2 & _).
  cbn [last]. rewrite E1, E2.
  rewrite isFpmPage_default, add_mod_page, H1. reflexivity.
Qed.

(** In every run of write, the page number an iteration pushes last, that
    of the page written for the bytes of the stream, is never a reserved
    slot. *)
Theorem stream_pages_avoid_reserved_slots (m : MsfFile) (f : OutFile) :
  Forall
    (fun c : Z =>
       forall (bytes : list byte) (file : OutFile) (pages : list Z),
         isFpmPage
           (last (pagesWritten
                    (writeStream_body bytes
                       {| wfile := file; pagesWritten := pages;
                          wpageCount := c |})) 0)
           kPageSize = false)
    (MsfFile_write_checks m f).
Proof.
  eapply Forall_impl; [| apply MsfFile_write_cursor].
  intros c Hc bytes file pages.
  rewrite writeStream_body_pages. cbn [pagesWritten wpageCount].
  rewrite last_app_nonempty.
  - now apply emitted_last.
  - unfold emitted. destruct (isFpmPage c kPageSize); discriminate.
Qed.

(** ** Containers without bytes *)

Lemma writeStreams_all_skipped (streams : list MsfStreamRef) :
  Forall null_or_empty streams ->
  map recorded_size streams = repeat 0 (List.length streams)
  /\ forall w : Writer, writeStreams streams w = w.
Proof.
  induction 1 as [|x streams Hx _ IH]; [split; [reflexivity | auto] |].
  destruct (writeStream_null_or_empty x Hx) as [Hsize Hskip].
  destruct IH as [IHsizes IHw]. split.
  - cbn. now rewrite Hsize, IHsizes.
  - intros w. cbn. rewrite (proj1 (Hskip w)). apply IHw.
Qed.

(** For a container whose entries are all null or empty (the container
    without streams among them), write emits the four pages of the preamble
    and nothing else: the directory is the count followed by one 0 for each
    entry and the counter stays at 4. *)
Theorem write_without_bytes (streams : list MsfStreamRef) (f : OutFile) :
  Forall null_or_empty streams ->
  MsfFile_write {| _streams := streams |} f
  = {| out_file := f ++ repeat kBlankPage 4;
       streamTable := uint32 (Z.of_nat (List.length streams))
                        :: repeat 0 (List.length streams);
       streamTablePages := [];
       out_pageCount := 4 |}.
Proof.
  intros Hall. destruct (writeStreams_all_skipped streams Hall) as [Hsizes Hw].
  unfold MsfFile_write. cbn [_streams]. rewrite Hw.
  unfold write_start, streamCount. cbn [_streams].
  rewrite writePreamble_4, pushSizes_map, Hsizes. reflexivity.
Qed.

Lemma write_without_bytes_witness :
  Forall null_or_empty [nullptr; Some (MsfReadOnlyStream [] 0)]
  /\ MsfFile_write
       {| _streams := [nullptr; Some (MsfReadOnlyStream [] 0)] |} []
     = {| out_file := repeat kBlankPage 4;
          streamTable := [2; 0; 0];
          streamTablePages := [];
          out_pageCount := 4 |}.
Proof.
  assert (H : Forall null_or_empty [nullptr; Some (MsfReadOnlyStream [] 0)]).
  { constructor; [left; reflexivity |].
    constructor; [right; eexists; split; reflexivity | constructor]. }
  split; [exact H |].
  exact (write_without_bytes [nullptr; Some (MsfReadOnlyStream [] 0)] [] H).
Defined.

(** ** The bytes of the streams do not reach the file *)

Lemma writeStream_loop_same_shape (fuel : nat) :
  forall (s t : MsfStream) (w : Writer),
    Stream.remaining s = Stream.remaining t ->
    writeStream_loop fuel s w = writeStream_loop fuel t w.
Proof.
  induction fuel as [|fuel IH]; intros s t w Hrem;
    cbn [writeStream_loop]; [reflexivity |].
  pose proof (read_length_min s) as Hs.
  pose proof (read_length_min t) as Ht.
  pose proof (read_remaining kPageSize s) as Rs.
  pose proof (read_remaining kPageSize t) as Rt.
  destruct (Stream.read kPageSize s) as [bs s'].
  destruct (Stream.read kPageSize t) as [bt t']. cbn [fst snd] in *.
  assert (Hlen : List.length bs = List.length bt) by lia.
  rewrite Hlen.
  destruct (Z.of_nat (List.length bt) =? 0); [reflexivity |].
  change (writeStream_body bs w) with (writeStream_body bt w).
  apply IH. lia.
Qed.

Lemma writeStream_same_shape (x y : MsfStreamRef) (w : Writer) :
  same_shape x y ->
  recorded_size x = recorded_size y /\ writeStream x w = writeStream y w.
Proof.
  destruct x as [s|], y as [t|]; cbn [same_shape]; try contradiction;
    [| split; reflexivity].
  intros [Hlen Hcont]. cbn [recorded_size writeStream]. rewrite Hlen.
  split; [reflexivity |].
  destruct (Stream.length t =? 0); [reflexivity |].
  assert (Hrem : Stream.remaining (Stream.setPos 0 s)
                 = Stream.remaining (Stream.setPos 0 t)).
  { unfold Stream.remaining. now rewrite !contents_setPos, !pos_setPos. }
  rewrite Hrem. now apply writeStream_loop_same_shape.
Qed.

Lemma writeStreams_same_shape (l1 l2 : list MsfStreamRef) :
  Forall2 same_shape l1 l2 ->
  map recorded_size l1 = map recorded_size l2
  /\ List.length l1 = List.length l2
  /\ forall w : Writer, writeStreams l1 w = writeStreams l2 w.
Proof.
  induction 1 as [|x y l1 l2 Hxy _ IH]; [repeat split |].
  destruct IH as (IHs & IHl & IHw).
  split; [| split].
  - cbn. rewrite IHs.
    now rewrite (proj1 (writeStream_same_shape x y (mkWriter [] [] 0) Hxy)).
  - cbn. now rewrite IHl.
  - intros w. cbn.
    rewrite (proj2 (writeStream_same_shape x y w Hxy)). apply IHw.
Qed.

(** Two containers whose streams agree, index by index, on being null and
    on their lengths are written to the same file, with the same directory
    and counter: nothing write produces depends on the bytes in the
    streams. *)
Theorem write_ignores_stream_bytes (l1 l2 : list MsfStreamRef) (f : OutFile) :
  Forall2 same_shape l1 l2 ->
  MsfFile_write {| _streams := l1 |} f = MsfFile_write {| _streams := l2 |} f.
Proof.
  intros Hshape.
  destruct (writeStreams_same_shape l1 l2 Hshape) as (Hs & Hl & Hw).
  unfold MsfFile_write, write_start, streamCount. cbn [_streams].
  now rewrite !pushSizes_map, Hs, Hl, Hw.
Qed.

Lemma write_ignores_stream_bytes_witness :
  Forall2 same_shape
    [Some (MsfReadOnlyStream [x41; x42] 0)] [Some (MsfReadOnlyStream [x00; xff] 1)]
  /\ MsfFile_write {| _streams := [Some (MsfReadOnlyStream [x41; x42] 0)] |} []
     = MsfFile_write {| _streams := [Some (MsfReadOnlyStream [x00; xff] 1)] |} [].
Proof.
  assert (H : Forall2 same_shape
                [Some (MsfReadOnlyStream [x41; x42] 0)]
                [Some (MsfReadOnlyStream [x00; xff] 1)]).
  { repeat constructor. }
  split; [exact H |].
  exact (write_ignores_stream_bytes _ _ [] H).
Defined.

(** ** What the constructor decodes *)

(** The declared length of each entry of a container. *)
Lemma readStreams_returns (f : InFile) (ps : Z) (table : list Z) (count : Z)
    (sizes : list Z) :
  forall (i pagesIndex : Z) (m m' : MsfFile),
    i <= count ->
    readStreams f ps table count sizes i pagesIndex m = Returns m' ->
    count - i <= Z.of_nat (List.length sizes)
    /\ map (option_map Stream.length) (_streams m')
       = map (option_map Stream.length) (_streams m)
           ++ map Some (firstn (Z.to_nat (count - i)) sizes).
Proof.
  induction sizes as [|size sizes IH]; intros i pagesIndex m m' Hi Hret;
    cbn [readStreams] in Hret;
    destruct (i <? count) eqn:Hlt;
    try (apply Z.ltb_ge in Hlt; injection Hret as <-;
         replace (count - i) with 0 by lia;
         rewrite firstn_O, app_nil_r; split; [cbn; lia | reflexivity]);
    destruct (pagesIndex >=? Z.of_nat (List.length table)); try discriminate.
  destruct (_ && _); [discriminate |].
  apply Z.ltb_lt in Hlt.
  apply IH in Hret; [| lia]. destruct Hret as [Hcount Hlens].
  split; [cbn [List.length]; lia |].
  rewrite Hlens. cbn [addStream fst _streams].
  rewrite map_app, <- app_assoc. f_equal.
  replace (Z.to_nat (count - i)) with (S (Z.to_nat (count - (i + 1)))) by lia.
  reflexivity.
Qed.

(** When the end of the constructor returns a container for the stream
    table [count; sizes...], the container has [count] streams, none null,
    their lengths are the first [count] sizes in order, and the table holds
    at least [count] sizes. *)
Theorem readStreamTable_returns (f : InFile) (ps count : Z) (sizes : list Z)
    (m : MsfFile) :
  0 <= count ->
  readStreamTable f ps (count :: sizes) = Returns m ->
  streamCount m = count
  /\ count <= Z.of_nat (List.length sizes)
  /\ map (option_map Stream.length) (_streams m)
     = map Some (firstn (Z.to_nat count) sizes).
Proof.
  intros Hcount Hret. cbn [readStreamTable] in Hret.
  apply readStreams_returns in Hret; [| exact Hcount].
  rewrite Z.sub_0_r in Hret. destruct Hret as [Hle Hlens].
  cbn [_streams map app] in Hlens.
  split; [| split; assumption].
  unfold streamCount.
  rewrite <- (length_map (option_map Stream.length)), Hlens.
  rewrite length_map, length_firstn. lia.
Qed.

Lemma readStreamTable_returns_witness :
  0 <= 2
  /\ readStreamTable [] 4096 [2; 0; 5000; 7; 8]
     = Returns {| _streams := [Some (MsfFileStream [] 4096 0 [] 0);
                               Some (MsfFileStream [] 4096 5000 [7; 8] 0)] |}
  /\ streamCount
       {| _streams := [Some (MsfFileStream [] 4096 0 [] 0);
                       Some (MsfFileStream [] 4096 5000 [7; 8] 0)] |} = 2.
Proof.
  assert (H0 : 0 <= 2) by lia.
  assert (Hret : readStreamTable [] 4096 [2; 0; 5000; 7; 8]
                 = Returns {| _streams :=
                                [Some (MsfFileStream [] 4096 0 [] 0);
                                 Some (MsfFileStream [] 4096 5000 [7; 8] 0)] |})
    by reflexivity.
  split; [exact H0 | split; [exact Hret |]].
  exact (proj1 (readStreamTable_returns [] 4096 2 [0; 5000; 7; 8] _ H0 Hret)).
Defined.

(** A stream table that declares more streams than it holds sizes, the
    sizes all 0, is read one word past its end: the test on the page cursor
    never fires. *)
Theorem readStreamTable_zero_sizes (f : InFile) (count : Z) (n : nat) :
  Z.of_nat n < count ->
  readStreamTable f 4096 (count :: repeat 0 n) = OutOfBounds (1 + Z.of_nat n).
Proof.
  intros Hn. cbn [readStreamTable].
  rewrite readStreams_zero_sizes by (cbn; lia). reflexivity.
Qed.

Lemma readStreamTable_zero_sizes_witness :
  Z.of_nat 3 < 10
  /\ readStreamTable [] 4096 (10 :: repeat 0 3) = OutOfBounds (1 + Z.of_nat 3).
Proof.
  assert (H : Z.of_nat 3 < 10) by (cbn; lia).
  split; [exact H |]. exact (readStreamTable_zero_sizes [] 10 3 H).
Defined.

(** A first stream whose page numbers do not all lie in the table (it
    needs at least one, and more than the words left after the sizes the
    count announces) is not stopped by the test on the page cursor, which
    is 0 then: its page numbers are read past the end of the vector. *)
Theorem readStreamTable_page_list_overread (f : InFile) (ps count size : Z)
    (rest : list Z) :
  1 <= count ->
  0 < pageCount ps size ->
  Z.of_nat (List.length (count :: size :: rest))
  < 1 + count + pageCount ps size ->
  readStreamTable f ps (count :: size :: rest)
  = OutOfBounds (Z.max (1 + count)
                   (Z.of_nat (List.length (count :: size :: rest)))).
Proof.
  intros Hcount Hpages Hlen. cbn [readStreamTable readStreams].
  replace (0 <? count) with true by (symmetry; apply Z.ltb_lt; lia).
  replace (0 >=? Z.of_nat (List.length (count :: size :: rest))) with false
    by (symmetry; rewrite Z.geb_leb; apply Z.leb_gt; cbn [List.length]; lia).
  replace (0 <? pageCount ps size) with true by (symmetry; apply Z.ltb_lt; lia).
  replace (Z.of_nat (List.length (count :: size :: rest))
           <? 1 + count + 0 + pageCount ps size) with true
    by (symmetry; apply Z.ltb_lt; lia).
  cbn [andb]. do 2 f_equal. lia.
Qed.

Lemma readStreamTable_page_list_overread_witness :
  1 <= 2
  /\ 0 < pageCount 4096 40960
  /\ Z.of_nat (List.length [2; 40960; 0]) < 1 + 2 + pageCount 4096 40960
  /\ readStreamTable [] 4096 [2; 40960; 0]
     = OutOfBounds (Z.max (1 + 2) (Z.of_nat (List.length [2; 40960; 0]))).
Proof.
  assert (H1 : 1 <= 2) by lia.
  assert (H2 : 0 < pageCount 4096 40960) by reflexivity.
  assert (H3 : Z.of_nat (List.length [2; 40960; 0])
               < 1 + 2 + pageCount 4096 40960) by reflexivity.
  repeat (split; [assumption |]).
  exact (readStreamTable_page_list_overread [] 4096 2 40960 [0] H1 H2 H3).
Defined.





(** ** The constructor: an empty stream table *)

(** A file that passes the three tests of the header and declares a stream
    table of 0 bytes (page size not 0): the vector streamTable is empty and
    the constructor reads its element 0 for the count. No InvalidMsf is
    thrown for it. *)
Theorem ctor_empty_stream_table (layout : HeaderLayout) (f : InFile) :
  (sizeof_MSF_HEADER layout <= List.length f)%nat ->
  memcmp_eq (magic (read_header layout f)) (kMsfHeaderMagic layout)
    (List.length (kMsfHeaderMagic layout)) = true ->
  uint32 (pageSize (read_header layout f) * hdr_pageCount (read_header layout f))
  = getFileSize f ->
  streamTableInfo_size (read_header layout f) = 0 ->
  0 < pageSize (read_header layout f) ->
  MsfFile_ctor layout f = OutOfBounds 0.
Proof.
  intros Hlen Hmagic Hsize Htable Hps. unfold MsfFile_ctor.
  apply Nat.ltb_ge in Hlen. rewrite Hlen, Hmagic. cbn [negb].
  apply Z.eqb_eq in Hsize. rewrite Hsize. cbn [negb].
  rewrite Htable.
  assert (Hpc : pageCount (pageSize (read_header layout f)) 0 = 0)
    by (unfold pageCount; apply Z.div_small; lia).
  rewrite Hpc. reflexivity.
Qed.

Lemma ctor_empty_stream_table_witness :
  MsfFile_ctor msf7 empty_table_file = OutOfBounds 0.
Proof.
  apply ctor_empty_stream_table.
  - apply Nat.leb_le. vm_compute. reflexivity.
  - vm_compute. reflexivity.
  - vm_compute. reflexivity.
  - vm_compute. reflexivity.
  - vm_compute. reflexivity.
Defined.

(** ** The constructor: each message has one cause *)

Lemma readStreams_throws (f : InFile) (ps : Z) (table : list Z) (count : Z)
    (sizes : list Z) :
  forall (i pagesIndex : Z) (m : MsfFile) (what : string),
    readStreams f ps table count sizes i pagesIndex m = InvalidMsf what ->
    what = "invalid stream count in stream table"%string.
Proof.
  induction sizes as [|size sizes IH]; intros i pagesIndex m what Hthrow;
    cbn [readStreams] in Hthrow;
    destruct (i <? count); try discriminate;
    destruct (pagesIndex >=? Z.of_nat (List.length table));
    try discriminate; try (now injection Hthrow).
  destruct (_ && _); [discriminate |].
  eapply IH. exact Hthrow.
Qed.

Lemma readStreamTable_throws (f : InFile) (ps : Z) (table : list Z)
    (what : string) :
  readStreamTable f ps table = InvalidMsf what ->
  what = "invalid stream count in stream table"%string.
Proof.
  destruct table as [|count sizes]; cbn [readStreamTable]; [discriminate |].
  apply readStreams_throws.
Qed.

(** The messages the steps after the header tests can throw. *)
Lemma ctor_later_messages (layout : HeaderLayout) (f : InFile) (what : string) :
  (List.length f <? sizeof_MSF_HEADER layout)%nat = false ->
  memcmp_eq (magic (read_header layout f)) (kMsfHeaderMagic layout)
    (List.length (kMsfHeaderMagic layout)) = true ->
  (uint32 (pageSize (read_header layout f) * hdr_pageCount (read_header layout f))
   =? getFileSize f) = true ->
  MsfFile_ctor layout f = InvalidMsf what ->
  In what ["Missing root MSF stream table page list";
           "failed to read stream table page list";
           "failed to read stream table";
           "invalid stream count in stream table"]%string.
Proof.
  intros Hlen Hmagic Hsize. unfold MsfFile_ctor.
  rewrite Hlen, Hmagic, Hsize. cbn [negb].
  do 3 (match goal with
        | |- (if ?c then _ else _) = _ -> _ =>
            destruct c; [intros [= ?]; subst what; cbn; auto |]
        end).
  intros Hthrow. apply readStreamTable_throws in Hthrow. subst what.
  cbn; auto.
Qed.

(** Each of the three messages about the header is thrown for its own
    test and for no other reason: "Missing MSF header" exactly when the
    file is shorter than the header, "Invalid MSF header" exactly when the
    header is read and the magic differs, "Invalid MSF file length" exactly
    when the magic is right and the product of the page size and the page
    count, as uint32_t, is not the size of the file. *)
Theorem ctor_message_causes (layout : HeaderLayout) (f : InFile) :
  let header := read_header layout f in
  let magic_ok :=
    memcmp_eq (magic header) (kMsfHeaderMagic layout)
      (List.length (kMsfHeaderMagic layout)) in
  (MsfFile_ctor layout f = InvalidMsf "Missing MSF header"
   <-> (List.length f < sizeof_MSF_HEADER layout)%nat)
  /\ (MsfFile_ctor layout f = InvalidMsf "Invalid MSF header"
      <-> (sizeof_MSF_HEADER layout <= List.length f)%nat /\ magic_ok = false)
  /\ (MsfFile_ctor layout f = InvalidMsf "Invalid MSF file length"
      <-> (sizeof_MSF_HEADER layout <= List.length f)%nat /\ magic_ok = true
          /\ uint32 (pageSize header * hdr_pageCount header) <> getFileSize f).
Proof.
  cbv zeta.
  destruct (List.length f <? sizeof_MSF_HEADER layout)%nat eqn:Hlen.
  { apply Nat.ltb_lt in Hlen.
    rewrite (ctor_missing_header layout f Hlen).
    repeat split; auto; try discriminate; intros; lia. }
  pose proof Hlen as Hge. apply Nat.ltb_ge in Hge.
  destruct (memcmp_eq (magic (read_header layout f)) (kMsfHeaderMagic layout)
              (List.length (kMsfHeaderMagic layout))) eqn:Hmagic.
  2:{ rewrite (ctor_bad_magic layout f Hge Hmagic).
      repeat split; auto; try discriminate; try lia;
        intros (_ & ? & _); discriminate. }
  destruct (uint32 (pageSize (read_header layout f)
                    * hdr_pageCount (read_header layout f))
            =? getFileSize f) eqn:Hsize.
  2:{ apply Z.eqb_neq in Hsize.
      rewrite (ctor_bad_length layout f Hge Hmagic Hsize).
      repeat split; auto; try discriminate; try lia;
        intros (_ & ?); discriminate. }
  apply Z.eqb_eq in Hsize as Heq.
  assert (Hno : forall what : string,
             MsfFile_ctor layout f = InvalidMsf what ->
             what <> "Missing MSF header"%string
             /\ what <> "Invalid MSF header"%string
             /\ what <> "Invalid MSF file length"%string).
  { intros what Hthrow.
    apply (ctor_later_messages layout f what Hlen Hmagic Hsize) in Hthrow.
    destruct Hthrow as [<- | [<- | [<- | [<- | []]]]];
      repeat split; discriminate. }
  split; [| split]; split.
  - intros H. destruct (Hno _ H) as (N & _ & _). congruence.
  - intros H. lia.
  - intros H. destruct (Hno _ H) as (_ & N & _). congruence.
  - intros (_ & H). discriminate.
  - intros H. destruct (Hno _ H) as (_ & _ & N). congruence.
  - intros (_ & _ & H). contradiction.
Qed.

Lemma ctor_message_causes_witness :
  (List.length (@nil byte) < sizeof_MSF_HEADER msf7)%nat
  /\ MsfFile_ctor msf7 [] = InvalidMsf "Missing MSF header".
Proof.
  assert (H : (List.length (@nil byte) < sizeof_MSF_HEADER msf7)%nat)
    by (cbn; lia).
  split; [exact H |].
  exact (proj2 (proj1 (ctor_message_causes msf7 [])) H).
Defined.

(** ** The constructor: what a returned container guarantees *)

Lemma read_u32s_nil (mem : list byte) (n : nat) :
  read_u32s mem n = [] -> n = 0%nat.
Proof. destruct n; [reflexivity | discriminate]. Qed.

(** A container is returned only for a file that holds a whole header with
    the magic, whose size is the product of the page size and the page
    count (as uint32_t), and whose stream table is declared with at least
    the four bytes of the count. *)
Theorem ctor_returns_checked_header (layout : HeaderLayout) (f : InFile)
    (m : MsfFile) :
  MsfFile_ctor layout f = Returns m ->
  (sizeof_MSF_HEADER layout <= List.length f)%nat
  /\ memcmp_eq (magic (read_header layout f)) (kMsfHeaderMagic layout)
       (List.length (kMsfHeaderMagic layout)) = true
  /\ uint32 (pageSize (read_header layout f)
             * hdr_pageCount (read_header layout f)) = getFileSize f
  /\ 4 <= streamTableInfo_size (read_header layout f).
Proof.
  unfold MsfFile_ctor.
  destruct (List.length f <? sizeof_MSF_HEADER layout)%nat eqn:Hlen;
    [discriminate |].
  destruct (memcmp_eq _ _ _) eqn:Hmagic; [| discriminate]. cbn [negb].
  destruct (_ =? getFileSize f) eqn:Hsize; [| discriminate]. cbn [negb].
  do 3 (match goal with
        | |- (if ?c then _ else _) = _ -> _ => destruct c; [discriminate |]
        end).
  intros Hret. apply Nat.ltb_ge in Hlen. apply Z.eqb_eq in Hsize.
  repeat split; try assumption.
  destruct (read_u32s _ _) as [|count sizes] eqn:Htable; [discriminate |].
  destruct (Z.to_nat (streamTableInfo_size (read_header layout f) / 4))
    as [|k] eqn:Hk; [discriminate |].
  clear Htable Hret.
  assert (Hq : 1 <= streamTableInfo_size (read_header layout f) / 4) by lia.
  destruct (Z.lt_ge_cases (streamTableInfo_size (read_header layout f)) 4)
    as [Hsmall | Hok]; [| exact Hok].
  destruct (Z.lt_ge_cases (streamTableInfo_size (read_header layout f)) 0)
    as [Hneg | Hpos].
  - assert (streamTableInfo_size (read_header layout f) / 4 < 0)
      by (apply Z.div_lt_upper_bound; lia).
    lia.
  - rewrite Z.div_small in Hq by lia. lia.
Qed.

Lemma ctor_returns_checked_header_witness :
  MsfFile_ctor msf7 two_stream_file
  = Returns {| _streams :=
                 [Some (MsfFileStream two_stream_file 4096 0 [] 0);
                  Some (MsfFileStream two_stream_file 4096 5 [0] 0)] |}
  /\ 4 <= streamTableInfo_size (read_header msf7 two_stream_file).
Proof.
  assert (Hret : MsfFile_ctor msf7 two_stream_file
                 = Returns {| _streams :=
                                [Some (MsfFileStream two_stream_file 4096 0 [] 0);
                                 Some (MsfFileStream two_stream_file 4096 5 [0] 0)] |})
    by (vm_compute; reflexivity).
  split; [exact Hret |].
  exact (proj2 (proj2 (proj2
           (ctor_returns_checked_header msf7 two_stream_file _ Hret)))).
Defined.

(** ** isFpmPage: the reserved slots recur *)

(** For a page size 2^k the predicate has period pageSize: the slots
    reserved among the first pageSize pages repeat in every run of pageSize
    pages. *)
Theorem isFpmPage_periodic (p k : Z) :
  0 <= k < 64 ->
  isFpmPage (p + 2 ^ k) (2 ^ k) = isFpmPage p (2 ^ k).
Proof.
  intros Hk. rewrite !isFpmPage_land, size_t_mask by assumption.
  rewrite !Z.land_ones by lia.
  replace (p + 2 ^ k) with (p + 1 * 2 ^ k) by lia.
  rewrite Z.mod_add; [reflexivity |].
  apply Z.pow_nonzero; lia.
Qed.

Lemma isFpmPage_periodic_witness :
  0 <= 12 < 64 /\ isFpmPage (1 + 2 ^ 12) (2 ^ 12) = isFpmPage 1 (2 ^ 12).
Proof.
  assert (H : 0 <= 12 < 64) by lia.
  split; [exact H |]. exact (isFpmPage_periodic 1 12 H).
Defined.
